(** * Community blog views (systers_portal/blog/views.py)

    A shallow embedding of the eight class-based views of the blog
    application: the list, detail, add, edit and delete views of community
    news and the list, detail and add views of community resources.

    The views are glue over a web framework.  The database tables are lists
    of records, a view instance ([self]) is a record threaded through a
    state-and-exception monad, and the generic views and access mixins the
    classes inherit from are written out as the method chains the source
    relies on. *)

From Stdlib Require Import List String Bool Arith ZArith Lia.
From stdpp Require Import base option gmap strings.
Import ListNotations.

Local Open Scope string_scope.
Local Open Scope list_scope.
Local Open Scope nat_scope.

(** ** Models *)

(** community.models.Community: the views read its primary key and slug. *)
Record Community := mkCommunity {
  community_pk : nat;
  community_slug : string
}.

(** Modelled from the spec: blog.models is not among the sources.  News and
    Resource are "two parallel post types scoped to a Community"; the views
    read [slug], filter on the [community] foreign key and hand [author] and
    [community] to the forms.  The remaining columns are kept as one opaque
    [post_body]. *)
Record Post := mkPost {
  post_pk : nat;
  post_slug : string;
  post_body : string;
  post_community : nat;
  post_author : nat
}.

(** The two post models of blog.models. *)
Inductive PostModel := News | Resource.

(** request.user.  [object_perms] lists the (permission, community pk) pairs
    granted to the user. *)
Record User := mkUser {
  user_pk : nat;
  is_authenticated : bool;
  is_superuser : bool;
  object_perms : list (string * nat)
}.

(** The tables the views touch. *)
Record DB := mkDB {
  communities : list Community;
  news : list Post;
  resources : list Post
}.

Definition objects (m : PostModel) (d : DB) : list Post :=
  match m with News => news d | Resource => resources d end.

Definition set_objects (m : PostModel) (l : list Post) (d : DB) : DB :=
  match m with
  | News => mkDB (communities d) l (resources d)
  | Resource => mkDB (communities d) (news d) l
  end.

(** ** Requests and view instances *)

(** The request methods the embedding follows: GET (links) and POST (form
    submissions).  Requests with another HTTP method are outside it. *)
Inductive Method := GET | POST.

(** The value of the [page] query parameter: an integer, the word [last],
    the empty string, or any other text. *)
Inductive PageParam := PageInt (n : Z) | PageLast | PageEmpty | PageOther.

(** The submitted form payload.  It has no community and no author
    component: those are not form fields. *)
Record FormData := mkFormData {
  data_slug : string;
  data_body : string
}.

Record Request := mkRequest {
  method : Method;
  user : User;
  GET_page : option PageParam;
  POST_data : FormData
}.

(** self.kwargs, as captured by the URL patterns of the views. *)
Record Kwargs := mkKwargs {
  kwargs_slug : string;
  kwargs_news_slug : string;
  kwargs_resource_slug : string
}.

(** What [self.object] may hold: a Community in the list and detail views,
    a post in the add, edit and delete views. *)
Inductive Instance := ACommunity (c : Community) | APost (p : Post).

Definition instance_slug (o : Instance) : string :=
  match o with
  | ACommunity c => community_slug c
  | APost p => post_slug p
  end.

Record Self := mkSelf {
  request : Request;
  kwargs : Kwargs;
  object : option Instance;
  community : option Community;
  object_list : list Post
}.

(** One evaluation of [user.has_perm(perm, obj)]. *)
Record PermCall := mkPermCall {
  call_user : User;
  call_perm : string;
  call_obj : Community
}.

(** The state a request runs in: the view instance, the database, and the
    trace of permission evaluations made so far. *)
Record St := mkSt {
  self : Self;
  db : DB;
  perm_trace : list PermCall
}.

Inductive Exn :=
| Http404
| PermissionDenied
| MultipleObjectsReturned
| AttributeError
| KeyError
| IntegrityError.

(** ** The state-and-exception monad *)

Definition M (A : Type) : Type := St -> (Exn + A) * St.

Definition ret {A} (a : A) : M A := fun s => (inr a, s).
Definition raise {A} (e : Exn) : M A := fun s => (inl e, s).
Definition bind {A B} (m : M A) (k : A -> M B) : M B :=
  fun s => match m s with
           | (inl e, s') => (inl e, s')
           | (inr a, s') => k a s'
           end.

Notation "'let!' x ':=' m 'in' k" := (bind m (fun x => k))
  (at level 10, x name, m at level 100, k at level 200).
Notation "m ';;;' k" := (bind m (fun _ => k))
  (at level 100, k at level 200, right associativity).

Definition get_self : M Self := fun s => (inr (self s), s).
Definition get_db : M DB := fun s => (inr (db s), s).
Definition put_db (d : DB) : M unit :=
  fun s => (inr tt, mkSt (self s) d (perm_trace s)).
Definition set_object (o : option Instance) : M unit :=
  fun s => let v := self s in
    (inr tt, mkSt (mkSelf (request v) (kwargs v) o (community v) (object_list v))
                  (db s) (perm_trace s)).
Definition set_community (c : Community) : M unit :=
  fun s => let v := self s in
    (inr tt, mkSt (mkSelf (request v) (kwargs v) (object v) (Some c) (object_list v))
                  (db s) (perm_trace s)).
Definition set_object_list (l : list Post) : M unit :=
  fun s => let v := self s in
    (inr tt, mkSt (mkSelf (request v) (kwargs v) (object v) (community v) l)
                  (db s) (perm_trace s)).
Definition log_perm (c : PermCall) : M unit :=
  fun s => (inr tt, mkSt (self s) (db s) (perm_trace s ++ [c])).

(** Reading an attribute that was never assigned. *)
Definition self_community : M Community :=
  let! v := get_self in
  match community v with Some c => ret c | None => raise AttributeError end.
Definition self_object : M Instance :=
  let! v := get_self in
  match object v with Some o => ret o | None => raise AttributeError end.

(** ** The object-relational mapper *)

Definition filter_slug {A} (slug_of : A -> string) (s : string) (l : list A) : list A :=
  List.filter (fun x => String.eqb (slug_of x) s) l.

(** QuerySet.get(): exactly one row, or an exception. *)
Inductive GetResult (A : Type) := Found (a : A) | DoesNotExist | Multiple.
Arguments Found {A} a.
Arguments DoesNotExist {A}.
Arguments Multiple {A}.

Definition queryset_get {A} (l : list A) : GetResult A :=
  match l with
  | [] => DoesNotExist
  | [x] => Found x
  | _ :: _ :: _ => Multiple
  end.

(** django.shortcuts.get_object_or_404(Model, slug=s). *)
Definition get_object_or_404 {A} (slug_of : A -> string) (tbl : list A) (s : string) : M A :=
  match queryset_get (filter_slug slug_of s tbl) with
  | Found x => ret x
  | DoesNotExist => raise Http404
  | Multiple => raise MultipleObjectsReturned
  end.

(** Post.objects.filter(community=c): the foreign key is compared with the
    primary key of [c]. *)
Definition filter_community (c : Community) (l : list Post) : list Post :=
  List.filter (fun p => Nat.eqb (post_community p) (community_pk c)) l.

Definition next_pk (l : list Post) : nat :=
  S (fold_right Nat.max 0 (map post_pk l)).

(** Model.save() of a fresh instance: the row gets a new primary key. *)
Definition insert_post (p : Post) (l : list Post) : Post * list Post :=
  let p' := mkPost (next_pk l) (post_slug p) (post_body p)
                   (post_community p) (post_author p) in
  (p', l ++ [p']).

(** Model.save() of an instance that has a primary key. *)
Definition update_post (p : Post) (l : list Post) : list Post :=
  map (fun q => if Nat.eqb (post_pk q) (post_pk p) then p else q) l.

(** Model.delete(). *)
Definition delete_post (p : Post) (l : list Post) : list Post :=
  List.filter (fun q => negb (Nat.eqb (post_pk q) (post_pk p))) l.

(** ** Permissions *)

(** Modelled from the spec: [has_perm] belongs to the authentication
    framework, not to the sources.  A permission string is "a framework-level
    authorization check evaluated against the requesting user, true
    unconditionally for superusers"; for the other users it is decided by
    the permissions granted to the user on the object. *)
Definition user_has_perm (u : User) (perm : string) (c : Community) : bool :=
  is_superuser u
  || existsb (fun g => String.eqb (fst g) perm && Nat.eqb (snd g) (community_pk c))
             (object_perms u).

(** request.user.has_perm(perm, obj), recorded in the trace. *)
Definition has_perm (u : User) (perm : string) (c : Community) : M bool :=
  log_perm (mkPermCall u perm c) ;;;
  ret (user_has_perm u perm c).

(** ** Forms *)

(** The form classes imported from blog.forms. *)
Inductive FormClass := AddNewsForm | EditNewsForm | AddResourceForm.

(** The keyword arguments a view hands to its form class. *)
Record FormKwargs := mkFormKwargs {
  kw_data : option FormData;
  kw_instance : option Post;
  kw_author : option User;
  kw_community : option Community
}.

Record Form := mkForm {
  form_class_of : FormClass;
  form_data : option FormData;
  form_instance : option Post;
  form_autofill : option (User * Community)
}.

Definition form_model (fc : FormClass) : PostModel :=
  match fc with
  | AddNewsForm | EditNewsForm => News
  | AddResourceForm => Resource
  end.

(** Modelled from the spec: blog.forms is not among the sources.  The add
    forms take the [author] and [community] keyword arguments that
    [get_form_kwargs] supplies "to autofill form fields with author and
    community without explicitly filling them up in the form"; the edit form
    is built from the keyword arguments of the generic update view alone. *)
Definition make_form (fc : FormClass) (kw : FormKwargs) : M Form :=
  match fc with
  | AddNewsForm | AddResourceForm =>
      match kw_author kw, kw_community kw with
      | Some a, Some c => ret (mkForm fc (kw_data kw) (kw_instance kw) (Some (a, c)))
      | _, _ => raise KeyError
      end
  | EditNewsForm => ret (mkForm fc (kw_data kw) (kw_instance kw) None)
  end.

(** Form validation lives in blog.forms and in the model fields, which are
    not among the sources: it is a parameter of the embedding.  [validate] is
    the outcome of form.is_valid(); [clean_instance] is what the validation
    of a bound form writes into the instance it was given. *)
Record Validator := mkValidator {
  validate :> DB -> Form -> bool;
  clean_instance : DB -> Form -> Post -> Post
}.

(** form.is_valid(): an unbound form is never valid. *)
Definition form_is_valid (valid : Validator) (d : DB) (f : Form) : bool :=
  match form_data f with
  | None => false
  | Some _ => valid d f
  end.

(** ModelForm validation (_post_clean): a bound form that was given an
    instance writes its cleaned fields into that instance.  The primary key
    is not a form field and stays. *)
Definition form_clean (valid : Validator) (t : DB) (f : Form) : Form :=
  match form_data f, form_instance f with
  | Some _, Some p0 =>
      let q := clean_instance valid t f p0 in
      mkForm (form_class_of f) (form_data f)
             (Some (mkPost (post_pk p0) (post_slug q) (post_body q)
                           (post_community q) (post_author q)))
             (form_autofill f)
  | _, _ => f
  end.

(** Modelled from the spec: form.save() is the step "bind submitted form
    data to a new or existing record with the community and author
    auto-filled".  A form without an instance makes a new record from the
    submitted data and the author and community of its keyword arguments; a
    form with an instance saves that instance as the validation left it,
    after setting author and community when it was given them.  The record
    is written to the table of the form's model. *)
Definition form_save (f : Form) : M Post :=
  match form_data f with
  | None => raise AttributeError
  | Some d =>
      let m := form_model (form_class_of f) in
      let! t := get_db in
      match form_instance f, form_autofill f with
      | None, Some (a, c) =>
          let (p, l) := insert_post (mkPost 0 (data_slug d) (data_body d)
                                            (community_pk c) (user_pk a))
                                    (objects m t) in
          put_db (set_objects m l t) ;;; ret p
      | None, None => raise IntegrityError
      | Some p0, Some (a, c) =>
          let p := mkPost (post_pk p0) (post_slug p0) (post_body p0)
                          (community_pk c) (user_pk a) in
          put_db (set_objects m (update_post p (objects m t)) t) ;;; ret p
      | Some p0, None =>
          put_db (set_objects m (update_post p0 (objects m t)) t) ;;; ret p0
      end
  end.

(** ** Responses *)

(** The result of [reverse(name, kwargs=...)].  The URL patterns are not
    among the sources, so a reversed URL is kept as the pattern name and the
    keyword arguments it was computed from. *)
Record Url := mkUrl {
  url_name : string;
  url_kwargs : list (string * string)
}.

Definition reverse (name : string) (kw : list (string * string)) : Url :=
  mkUrl name kw.

(** The view classes defined in blog/views.py. *)
Inductive View :=
| VCommunityNewsList
| VCommunityNews
| VAddCommunityNews
| VEditCommunityNews
| VDeleteCommunityNews
| VCommunityResourceList
| VCommunityResource
| VAddCommunityResource.

(** Values stored in a template context.  [VView] is the view itself, with
    its class attributes, as a template reaches it. *)
Inductive Value :=
| VObj (o : Instance)
| VStr (s : string)
| VList (l : list Post)
| VBool (b : bool)
| VInt (n : Z)
| VForm (f : Form)
| VView (w : View).

(** A template context, restricted to the keys set by this module and the
    keys [view], [object], [form], [object_list], [page_obj] and
    [is_paginated] of the generic views.  What UserDetailsMixin and
    CommunityMenuMixin add is outside the sources. *)
Abbreviation Context := (gmap string Value).

Inductive Response :=
| TemplateResponse (template : string) (context : Context)
| HttpResponseRedirect (url : Url)
| HttpResponseNotAllowed.

(** ** Generic views and mixins of the framework *)

(** SingleObjectMixin.get_object over a table: filter on the slug taken from
    the URL, then [get()]; a missing row is a 404. *)
Definition get_object_community (s : string) : M Community :=
  let! t := get_db in
  get_object_or_404 community_slug (communities t) s.

Definition get_object_post (m : PostModel) (s : string) : M Post :=
  let! t := get_db in
  get_object_or_404 post_slug (objects m t) s.

(** ContextMixin.get_context_data, the end of every chain: the view goes
    under [view] unless the key is taken. *)
Definition ContextMixin_get_context_data (w : View) (kw : Context) : M Context :=
  ret (match kw !! "view" with
       | Some _ => kw
       | None => <["view" := VView w]> kw
       end).

(** SingleObjectMixin.get_context_data: [object] is set when [self.object]
    is; [super] is the rest of the chain. *)
Definition SingleObjectMixin_get_context_data (super : Context -> M Context)
    (kw : Context) : M Context :=
  let! v := get_self in
  super (match object v with
         | Some o => <["object" := VObj o]> kw
         | None => kw
         end).

(** Paginator.num_pages with orphans = 0 and allow_empty_first_page = True:
    the ceiling of max(1, count) / per_page. *)
Definition num_pages (per_page count : nat) : nat :=
  (Nat.max 1 count + per_page - 1) / per_page.

(** Paginator.page(number).object_list: the slice [bottom:top]. *)
Definition page_items {A} (per_page : nat) (number : nat) (l : list A) : list A :=
  let bottom := (number - 1) * per_page in
  let top := bottom + per_page in
  let top := if length l <=? top then length l else top in
  firstn (top - bottom) (skipn bottom l).

(** MultipleObjectMixin.paginate_queryset: the page number comes from the
    [page] query parameter; without one, or with an empty one, it is 1.  A
    page that is not a number, below 1 or beyond the last page is a 404. *)
Definition paginate_queryset (queryset : list Post) (page_size : nat)
  : M (Z * list Post * bool) :=
  let! v := get_self in
  let np := Z.of_nat (num_pages page_size (length queryset)) in
  let! number :=
    match GET_page (request v) with
    | None => ret 1%Z
    | Some (PageInt n) => ret n
    | Some PageEmpty => ret 1%Z
    | Some PageLast => ret np
    | Some PageOther => raise Http404
    end in
  if (number <? 1)%Z then raise Http404
  else if (np <? number)%Z && negb (number =? 1)%Z then raise Http404
  else ret (number,
            page_items page_size (Z.to_nat number) queryset,
            (1 <? number)%Z || (number <? np)%Z).

(** MultipleObjectMixin.get_context_data with [paginate_by] set; [super]
    is the rest of the chain. *)
Definition MultipleObjectMixin_get_context_data (super : Context -> M Context)
    (paginate_by : nat) (kw : Context) : M Context :=
  let! v := get_self in
  let! r := paginate_queryset (object_list v) paginate_by in
  let '(number, items, is_paginated) := r in
  super (<["object_list" := VList items]>
         (<["is_paginated" := VBool is_paginated]>
          (<["page_obj" := VInt number]> kw))).

(** View.dispatch: the handler named after the request method, or 405. *)
Definition View_dispatch (get post : option (M Response)) : M Response :=
  let! v := get_self in
  match method (request v) with
  | GET => match get with Some h => h | None => ret HttpResponseNotAllowed end
  | POST => match post with Some h => h | None => ret HttpResponseNotAllowed end
  end.

Definition redirect_to_login : Response :=
  HttpResponseRedirect (mkUrl "login" []).

(** braces.views.LoginRequiredMixin.dispatch. *)
Definition LoginRequiredMixin_dispatch (raise_exception : bool) (next : M Response)
  : M Response :=
  let! v := get_self in
  if is_authenticated (user (request v)) then next
  else if raise_exception then raise PermissionDenied
  else ret redirect_to_login.

(** braces.views.PermissionRequiredMixin.dispatch. *)
Definition PermissionRequiredMixin_dispatch (raise_exception : bool)
  (check_permissions : M bool) (next : M Response) : M Response :=
  let! has_permission := check_permissions in
  if has_permission then next
  else if raise_exception then raise PermissionDenied
  else ret redirect_to_login.

(** ModelFormMixin.get_form_kwargs: the submitted data on POST, and
    [self.object] as the instance. *)
Definition ModelFormMixin_get_form_kwargs : M FormKwargs :=
  let! v := get_self in
  ret (mkFormKwargs
         (match method (request v) with
          | POST => Some (POST_data (request v))
          | GET => None
          end)
         (match object v with Some (APost p) => Some p | _ => None end)
         None None).

(** FormMixin.get_form. *)
Definition get_form (fc : FormClass) (get_form_kwargs : M FormKwargs) : M Form :=
  let! kw := get_form_kwargs in
  make_form fc kw.

(** ProcessFormView.get: render the unbound form. *)
Definition ProcessFormView_get (template : string) (fc : FormClass)
  (get_form_kwargs : M FormKwargs) (get_context_data : Context -> M Context)
  : M Response :=
  let! form := get_form fc get_form_kwargs in
  let! context := get_context_data {[ "form" := VForm form ]} in
  ret (TemplateResponse template context).

(** ProcessFormView.post with ModelFormMixin.form_valid and
    FormMixin.form_invalid.  The instance of the form is [self.object]
    itself, so what validation writes into it shows in both. *)
Definition ProcessFormView_post (valid : Validator) (template : string)
  (fc : FormClass) (get_form_kwargs : M FormKwargs)
  (get_context_data : Context -> M Context) (get_success_url : M Url)
  : M Response :=
  let! form := get_form fc get_form_kwargs in
  let! t := get_db in
  let is_valid := form_is_valid valid t form in
  let form := form_clean valid t form in
  match form_instance form with
  | Some p => set_object (Some (APost p))
  | None => ret tt
  end ;;;
  if is_valid then
    let! p := form_save form in
    set_object (Some (APost p)) ;;;
    let! url := get_success_url in
    ret (HttpResponseRedirect url)
  else
    let! context := get_context_data {[ "form" := VForm form ]} in
    ret (TemplateResponse template context).

(** ** The views of blog/views.py *)

Module CommunityNewsListView.
Definition template_name := "blog/post_list.html".
Definition page_slug := "news".
Definition paginate_by := 5.

Definition get_queryset : M (list Post) :=
  let! o := self_object in
  let! t := get_db in
  match o with
  | ACommunity c => ret (filter_community c (news t))
  | APost _ => raise AttributeError
  end.

Definition get_context_data (kw : Context) : M Context :=
  let! context :=
    SingleObjectMixin_get_context_data
      (MultipleObjectMixin_get_context_data
         (ContextMixin_get_context_data VCommunityNewsList) paginate_by) kw in
  let! o := self_object in
  ret (<["post_type" := VStr "news"]> (<["community" := VObj o]> context)).

Definition get_community : M Instance := self_object.

Definition get : M Response :=
  let! v := get_self in
  let! c := get_object_community (kwargs_slug (kwargs v)) in
  set_object (Some (ACommunity c)) ;;;
  let! l := get_queryset in
  set_object_list l ;;;
  let! context := get_context_data ∅ in
  ret (TemplateResponse template_name context).

Definition dispatch : M Response := View_dispatch (Some get) None.
End CommunityNewsListView.

Module CommunityNewsView.
Definition template_name := "blog/post.html".
Definition page_slug := "news".

Definition get_context_data (kw : Context) : M Context :=
  let! context :=
    SingleObjectMixin_get_context_data
      (ContextMixin_get_context_data VCommunityNews) kw in
  let! o := self_object in
  let context := <["community" := VObj o]> context in
  let! v := get_self in
  let news_slug := kwargs_news_slug (kwargs v) in
  let! t := get_db in
  let! p := get_object_or_404 post_slug (news t) news_slug in
  let context := <["post" := VObj (APost p)]> context in
  ret (<["post_type" := VStr "news"]> context).

Definition get_community : M Instance := self_object.

Definition get : M Response :=
  let! v := get_self in
  let! c := get_object_community (kwargs_slug (kwargs v)) in
  set_object (Some (ACommunity c)) ;;;
  let! context := get_context_data ∅ in
  ret (TemplateResponse template_name context).

Definition dispatch : M Response := View_dispatch (Some get) None.
End CommunityNewsView.

Module AddCommunityNewsView.
Definition template_name := "blog/add_post.html".
Definition model := News.
Definition form_class := AddNewsForm.
Definition raise_exception := true.

Definition get_success_url : M Url :=
  let! c := self_community in
  let! o := self_object in
  ret (reverse "view_community_news"
               [("slug", community_slug c); ("news_slug", instance_slug o)]).

Definition get_context_data (kw : Context) : M Context :=
  let! context :=
    SingleObjectMixin_get_context_data
      (ContextMixin_get_context_data VAddCommunityNews) kw in
  let! c := self_community in
  ret (<["post_type" := VStr "news"]>
       (<["community" := VObj (ACommunity c)]> context)).

Definition get_form_kwargs : M FormKwargs :=
  let! kw := ModelFormMixin_get_form_kwargs in
  let! v := get_self in
  let kw := mkFormKwargs (kw_data kw) (kw_instance kw)
                         (Some (user (request v))) (kw_community kw) in
  let! c := self_community in
  ret (mkFormKwargs (kw_data kw) (kw_instance kw) (kw_author kw) (Some c)).

Definition check_permissions : M bool :=
  let! v := get_self in
  let! t := get_db in
  let! c := get_object_or_404 community_slug (communities t)
                              (kwargs_slug (kwargs v)) in
  set_community c ;;;
  let! c := self_community in
  has_perm (user (request v)) "add_community_news" c.

Definition get : M Response :=
  set_object None ;;;
  ProcessFormView_get template_name form_class get_form_kwargs get_context_data.

Definition post (valid : Validator) : M Response :=
  set_object None ;;;
  ProcessFormView_post valid template_name form_class get_form_kwargs
                       get_context_data get_success_url.

Definition dispatch (valid : Validator) : M Response :=
  LoginRequiredMixin_dispatch raise_exception
    (PermissionRequiredMixin_dispatch raise_exception check_permissions
       (View_dispatch (Some get) (Some (post valid)))).
End AddCommunityNewsView.

Module EditCommunityNewsView.
Definition template_name := "blog/edit_post.html".
Definition model := News.
Definition form_class := EditNewsForm.
Definition raise_exception := true.

Definition get_success_url : M Url :=
  let! c := self_community in
  let! o := self_object in
  ret (reverse "view_community_news"
               [("slug", community_slug c); ("news_slug", instance_slug o)]).

Definition get_context_data (kw : Context) : M Context :=
  let! context :=
    SingleObjectMixin_get_context_data
      (ContextMixin_get_context_data VEditCommunityNews) kw in
  let! c := self_community in
  ret (<["community" := VObj (ACommunity c)]> context).

Definition get_form_kwargs : M FormKwargs := ModelFormMixin_get_form_kwargs.

Definition check_permissions : M bool :=
  let! v := get_self in
  let! t := get_db in
  let! c := get_object_or_404 community_slug (communities t)
                              (kwargs_slug (kwargs v)) in
  set_community c ;;;
  let! c := self_community in
  has_perm (user (request v)) "change_community_news" c.

(** slug_url_kwarg = "news_slug" *)
Definition get_object : M Post :=
  let! v := get_self in
  get_object_post model (kwargs_news_slug (kwargs v)).

Definition get : M Response :=
  let! p := get_object in
  set_object (Some (APost p)) ;;;
  ProcessFormView_get template_name form_class get_form_kwargs get_context_data.

Definition post (valid : Validator) : M Response :=
  let! p := get_object in
  set_object (Some (APost p)) ;;;
  ProcessFormView_post valid template_name form_class get_form_kwargs
                       get_context_data get_success_url.

Definition dispatch (valid : Validator) : M Response :=
  LoginRequiredMixin_dispatch raise_exception
    (PermissionRequiredMixin_dispatch raise_exception check_permissions
       (View_dispatch (Some get) (Some (post valid)))).
End EditCommunityNewsView.

Module DeleteCommunityNewsView.
Definition template_name := "blog/post_confirm_delete.html".
Definition model := News.
Definition raise_exception := true.

Definition get_success_url : M Url :=
  let! c := self_community in
  ret (reverse "view_community_news_list" [("slug", community_slug c)]).

Definition get_context_data (kw : Context) : M Context :=
  let! context :=
    SingleObjectMixin_get_context_data
      (ContextMixin_get_context_data VDeleteCommunityNews) kw in
  let! c := self_community in
  ret (<["post_type" := VStr "news"]>
       (<["community" := VObj (ACommunity c)]> context)).

Definition check_permissions : M bool :=
  let! v := get_self in
  let! t := get_db in
  let! c := get_object_or_404 community_slug (communities t)
                              (kwargs_slug (kwargs v)) in
  set_community c ;;;
  let! c := self_community in
  has_perm (user (request v)) "delete_community_news" c.

(** slug_url_kwarg = "news_slug" *)
Definition get_object : M Post :=
  let! v := get_self in
  get_object_post model (kwargs_news_slug (kwargs v)).

(** BaseDetailView.get: the confirmation page. *)
Definition get : M Response :=
  let! p := get_object in
  set_object (Some (APost p)) ;;;
  let! context := get_context_data ∅ in
  ret (TemplateResponse template_name context).

(** DeletionMixin.post: delete the row, then redirect. *)
Definition post : M Response :=
  let! p := get_object in
  set_object (Some (APost p)) ;;;
  let! success_url := get_success_url in
  let! t := get_db in
  put_db (set_objects model (delete_post p (objects model t)) t) ;;;
  ret (HttpResponseRedirect success_url).

Definition dispatch : M Response :=
  LoginRequiredMixin_dispatch raise_exception
    (PermissionRequiredMixin_dispatch raise_exception check_permissions
       (View_dispatch (Some get) (Some post))).
End DeleteCommunityNewsView.

Module CommunityResourceListView.
Definition template_name := "blog/post_list.html".
Definition page_slug := "resources".
Definition paginate_by := 5.

Definition get_queryset : M (list Post) :=
  let! o := self_object in
  let! t := get_db in
  match o with
  | ACommunity c => ret (filter_community c (resources t))
  | APost _ => raise AttributeError
  end.

Definition get_context_data (kw : Context) : M Context :=
  let! context :=
    SingleObjectMixin_get_context_data
      (MultipleObjectMixin_get_context_data
         (ContextMixin_get_context_data VCommunityResourceList) paginate_by) kw in
  let! o := self_object in
  ret (<["post_type" := VStr "resource"]> (<["community" := VObj o]> context)).

Definition get_community : M Instance := self_object.

Definition get : M Response :=
  let! v := get_self in
  let! c := get_object_community (kwargs_slug (kwargs v)) in
  set_object (Some (ACommunity c)) ;;;
  let! l := get_queryset in
  set_object_list l ;;;
  let! context := get_context_data ∅ in
  ret (TemplateResponse template_name context).

Definition dispatch : M Response := View_dispatch (Some get) None.
End CommunityResourceListView.

Module CommunityResourceView.
Definition template_name := "blog/post.html".
Definition page_slug := "resources".

Definition get_context_data (kw : Context) : M Context :=
  let! context :=
    SingleObjectMixin_get_context_data
      (ContextMixin_get_context_data VCommunityResource) kw in
  let! o := self_object in
  let context := <["community" := VObj o]> context in
  let! v := get_self in
  let resource_slug := kwargs_resource_slug (kwargs v) in
  let! t := get_db in
  let! p := get_object_or_404 post_slug (resources t) resource_slug in
  let context := <["post" := VObj (APost p)]> context in
  ret (<["post_type" := VStr "resource"]> context).

Definition get_community : M Instance := self_object.

Definition get : M Response :=
  let! v := get_self in
  let! c := get_object_community (kwargs_slug (kwargs v)) in
  set_object (Some (ACommunity c)) ;;;
  let! context := get_context_data ∅ in
  ret (TemplateResponse template_name context).

Definition dispatch : M Response := View_dispatch (Some get) None.
End CommunityResourceView.

Module AddCommunityResourceView.
Definition template_name := "blog/add_post.html".
Definition model := Resource.
Definition form_class := AddResourceForm.
Definition raise_exception := true.

Definition get_success_url : M Url :=
  let! c := self_community in
  let! o := self_object in
  ret (reverse "view_community_resource"
               [("slug", community_slug c); ("resource_slug", instance_slug o)]).

Definition get_context_data (kw : Context) : M Context :=
  let! context :=
    SingleObjectMixin_get_context_data
      (ContextMixin_get_context_data VAddCommunityResource) kw in
  let! c := self_community in
  ret (<["post_type" := VStr "resource"]>
       (<["community" := VObj (ACommunity c)]> context)).

Definition get_form_kwargs : M FormKwargs :=
  let! kw := ModelFormMixin_get_form_kwargs in
  let! v := get_self in
  let kw := mkFormKwargs (kw_data kw) (kw_instance kw)
                         (Some (user (request v))) (kw_community kw) in
  let! c := self_community in
  ret (mkFormKwargs (kw_data kw) (kw_instance kw) (kw_author kw) (Some c)).

Definition check_permissions : M bool :=
  let! v := get_self in
  let! t := get_db in
  let! c := get_object_or_404 community_slug (communities t)
                              (kwargs_slug (kwargs v)) in
  set_community c ;;;
  let! c := self_community in
  has_perm (user (request v)) "add_community_resource" c.

Definition get : M Response :=
  set_object None ;;;
  ProcessFormView_get template_name form_class get_form_kwargs get_context_data.

Definition post (valid : Validator) : M Response :=
  set_object None ;;;
  ProcessFormView_post valid template_name form_class get_form_kwargs
                       get_context_data get_success_url.

Definition dispatch (valid : Validator) : M Response :=
  LoginRequiredMixin_dispatch raise_exception
    (PermissionRequiredMixin_dispatch raise_exception check_permissions
       (View_dispatch (Some get) (Some (post valid)))).
End AddCommunityResourceView.

(** ** The module as a whole *)

Definition all_views : list View :=
  [VCommunityNewsList; VCommunityNews; VAddCommunityNews; VEditCommunityNews;
   VDeleteCommunityNews; VCommunityResourceList; VCommunityResource;
   VAddCommunityResource].

Inductive CrudOp := OpList | OpDetail | OpCreate | OpUpdate | OpDelete.

(** The generic view each class derives from. *)
Definition view_op (w : View) : CrudOp :=
  match w with
  | VCommunityNewsList | VCommunityResourceList => OpList
  | VCommunityNews | VCommunityResource => OpDetail
  | VAddCommunityNews | VAddCommunityResource => OpCreate
  | VEditCommunityNews => OpUpdate
  | VDeleteCommunityNews => OpDelete
  end.

(** The post model each class queries or edits. *)
Definition view_post_model (w : View) : PostModel :=
  match w with
  | VCommunityNewsList | VCommunityNews | VAddCommunityNews
  | VEditCommunityNews | VDeleteCommunityNews => News
  | VCommunityResourceList | VCommunityResource | VAddCommunityResource => Resource
  end.

(** The views behind LoginRequiredMixin and PermissionRequiredMixin. *)
Definition is_mutating (w : View) : bool :=
  match w with
  | VAddCommunityNews | VEditCommunityNews | VDeleteCommunityNews
  | VAddCommunityResource => true
  | _ => false
  end.

(** The permission string each mutating view checks. *)
Definition view_permission (w : View) : option string :=
  match w with
  | VAddCommunityNews => Some "add_community_news"
  | VEditCommunityNews => Some "change_community_news"
  | VDeleteCommunityNews => Some "delete_community_news"
  | VAddCommunityResource => Some "add_community_resource"
  | _ => None
  end.

Definition check_permissions (w : View) : option (M bool) :=
  match w with
  | VAddCommunityNews => Some AddCommunityNewsView.check_permissions
  | VEditCommunityNews => Some EditCommunityNewsView.check_permissions
  | VDeleteCommunityNews => Some DeleteCommunityNewsView.check_permissions
  | VAddCommunityResource => Some AddCommunityResourceView.check_permissions
  | _ => None
  end.

Definition dispatch (valid : Validator) (w : View) : M Response :=
  match w with
  | VCommunityNewsList => CommunityNewsListView.dispatch
  | VCommunityNews => CommunityNewsView.dispatch
  | VAddCommunityNews => AddCommunityNewsView.dispatch valid
  | VEditCommunityNews => EditCommunityNewsView.dispatch valid
  | VDeleteCommunityNews => DeleteCommunityNewsView.dispatch
  | VCommunityResourceList => CommunityResourceListView.dispatch
  | VCommunityResource => CommunityResourceView.dispatch
  | VAddCommunityResource => AddCommunityResourceView.dispatch valid
  end.

(** View.as_view(): a fresh instance per request, holding the request and
    the URL keyword arguments. *)
Definition init (r : Request) (kw : Kwargs) (t : DB) : St :=
  mkSt (mkSelf r kw None None []) t [].

Definition as_view (valid : Validator) (w : View) (r : Request) (kw : Kwargs) (t : DB)
  : (Exn + Response) * St :=
  dispatch valid w (init r kw t).

(** ** Vocabulary of the properties *)

Definition list_view (m : PostModel) : View :=
  match m with News => VCommunityNewsList | Resource => VCommunityResourceList end.

Definition detail_view (m : PostModel) : View :=
  match m with News => VCommunityNews | Resource => VCommunityResource end.

Definition add_view (m : PostModel) : View :=
  match m with News => VAddCommunityNews | Resource => VAddCommunityResource end.

(** The URL keyword argument that names the post. *)
Definition kwargs_post_slug (m : PostModel) (kw : Kwargs) : string :=
  match m with
  | News => kwargs_news_slug kw
  | Resource => kwargs_resource_slug kw
  end.

Definition post_type (m : PostModel) : string :=
  match m with News => "news" | Resource => "resource" end.

(** [x] is the one row of [tbl] with slug [s]. *)
Definition identified_by {A} (slug_of : A -> string) (s : string) (tbl : list A) (x : A)
  : Prop :=
  filter_slug slug_of s tbl = [x].

(** No row of [tbl] has slug [s]. *)
Definition no_such {A} (slug_of : A -> string) (s : string) (tbl : list A) : Prop :=
  filter_slug slug_of s tbl = [].

Definition context_lookup (key : string) (x : Exn + Response) : option Value :=
  match x with
  | inr (TemplateResponse _ context) => context !! key
  | _ => None
  end.

(** The claim that a detail view shows a post of the community in the URL. *)
Definition detail_post_scoped (valid : Validator) (m : PostModel) (r : Request)
    (kw : Kwargs) (t : DB) : Prop :=
  forall template context st',
    as_view valid (detail_view m) r kw t
      = (inr (TemplateResponse template context), st') ->
    exists c p,
      identified_by community_slug (kwargs_slug kw) (communities t) c /\
      context !! "post" = Some (VObj (APost p)) /\
      post_community p = community_pk c.

(** The claim that every operation has a news view and a resource view. *)
Definition both_models_provided (op : CrudOp) : Prop :=
  exists wn wr,
    view_op wn = op /\ view_post_model wn = News /\
    view_op wr = op /\ view_post_model wr = Resource.

(** The claim that a successful submission stores the community of the URL
    and the requesting user in the saved record. *)
Definition saved_record_autofilled (valid : Validator) (w : View) (r : Request)
    (kw : Kwargs) (t : DB) : Prop :=
  forall url st',
    as_view valid w r kw t = (inr (HttpResponseRedirect url), st') ->
    exists c p,
      identified_by community_slug (kwargs_slug kw) (communities t) c /\
      object (self st') = Some (APost p) /\
      post_community p = community_pk c /\
      post_author p = user_pk (user r).

(** The claim that a request naming a missing community is a 404 that
    leaves the tables alone. *)
Definition missing_community_is_404 (valid : Validator) (w : View) (r : Request)
    (kw : Kwargs) (t : DB) : Prop :=
  no_such community_slug (kwargs_slug kw) (communities t) ->
  fst (as_view valid w r kw t) = inl Http404 /\
  db (snd (as_view valid w r kw t)) = t.

(** The same claim for the mutating views, read per requesting user. *)
Definition missing_community_is_404_for (valid : Validator) (w : View) (u : User)
  : Prop :=
  forall r kw t,
    user r = u ->
    no_such community_slug (kwargs_slug kw) (communities t) ->
    fst (as_view valid w r kw t) = inl Http404.

(** *** Exchanging the two post models *)

Definition swap_db (t : DB) : DB :=
  mkDB (communities t) (resources t) (news t).

Definition swap_perm (s : string) : string :=
  if String.eqb s "add_community_news" then "add_community_resource"
  else if String.eqb s "add_community_resource" then "add_community_news"
  else s.

Definition swap_user (u : User) : User :=
  mkUser (user_pk u) (is_authenticated u) (is_superuser u)
         (map (fun g => (swap_perm (fst g), snd g)) (object_perms u)).

Definition swap_request (r : Request) : Request :=
  mkRequest (method r) (swap_user (user r)) (GET_page r) (POST_data r).

Definition swap_kwargs (kw : Kwargs) : Kwargs :=
  mkKwargs (kwargs_slug kw) (kwargs_resource_slug kw) (kwargs_news_slug kw).

Definition swap_form_class (fc : FormClass) : FormClass :=
  match fc with
  | AddNewsForm => AddResourceForm
  | AddResourceForm => AddNewsForm
  | EditNewsForm => EditNewsForm
  end.

Definition swap_form (f : Form) : Form :=
  mkForm (swap_form_class (form_class_of f)) (form_data f) (form_instance f)
         (match form_autofill f with
          | Some (a, c) => Some (swap_user a, c)
          | None => None
          end).

Definition swap_post_type (s : string) : string :=
  if String.eqb s "news" then "resource"
  else if String.eqb s "resource" then "news"
  else s.

(** A view class and the one that does the same for the other model. *)
Definition swap_view (w : View) : View :=
  match w with
  | VCommunityNewsList => VCommunityResourceList
  | VCommunityNews => VCommunityResource
  | VAddCommunityNews => VAddCommunityResource
  | VCommunityResourceList => VCommunityNewsList
  | VCommunityResource => VCommunityNews
  | VAddCommunityResource => VAddCommunityNews
  | VEditCommunityNews => VEditCommunityNews
  | VDeleteCommunityNews => VDeleteCommunityNews
  end.

Definition swap_page_slug (s : string) : string :=
  if String.eqb s "news" then "resources"
  else if String.eqb s "resources" then "news"
  else s.

Definition swap_value (x : Value) : Value :=
  match x with
  | VStr s => VStr (swap_post_type s)
  | VForm f => VForm (swap_form f)
  | VView w => VView (swap_view w)
  | _ => x
  end.

Definition swap_url_word (s : string) : string :=
  if String.eqb s "view_community_news" then "view_community_resource"
  else if String.eqb s "view_community_resource" then "view_community_news"
  else if String.eqb s "news_slug" then "resource_slug"
  else if String.eqb s "resource_slug" then "news_slug"
  else s.

Definition swap_url (u : Url) : Url :=
  mkUrl (swap_url_word (url_name u))
        (map (fun a => (swap_url_word (fst a), snd a)) (url_kwargs u)).

Definition swap_response (x : Response) : Response :=
  match x with
  | TemplateResponse template context =>
      TemplateResponse template (swap_value <$> context)
  | HttpResponseRedirect u => HttpResponseRedirect (swap_url u)
  | HttpResponseNotAllowed => HttpResponseNotAllowed
  end.

Definition swap_self (v : Self) : Self :=
  mkSelf (swap_request (request v)) (swap_kwargs (kwargs v)) (object v)
         (community v) (object_list v).

Definition swap_call (c : PermCall) : PermCall :=
  mkPermCall (swap_user (call_user c)) (swap_perm (call_perm c)) (call_obj c).

Definition swap_st (s : St) : St :=
  mkSt (swap_self (self s)) (swap_db (db s)) (map swap_call (perm_trace s)).

Definition swap_outcome (x : (Exn + Response) * St) : (Exn + Response) * St :=
  (match fst x with
   | inl e => inl e
   | inr resp => inr (swap_response resp)
   end,
   swap_st (snd x)).

Definition swap_validator (valid : Validator) : Validator :=
  mkValidator (fun t f => valid (swap_db t) (swap_form f))
              (fun t f p => clean_instance valid (swap_db t) (swap_form f) p).

(** The resource view that mirrors a news view, when there is one. *)
Definition resource_counterpart (w : View) : option View :=
  match w with
  | VCommunityNewsList => Some VCommunityResourceList
  | VCommunityNews => Some VCommunityResource
  | VAddCommunityNews => Some VAddCommunityResource
  | _ => None
  end.

(** What the edit view saves: the instance of its form as the validation
    of the submitted data left it. *)
Definition edited (valid : Validator) (t : DB) (d : FormData) (p0 : Post)
  : option Post :=
  form_instance (form_clean valid t (mkForm EditNewsForm (Some d) (Some p0) None)).

(** The post model a view does not work on. *)
Definition other_model (m : PostModel) : PostModel :=
  match m with News => Resource | Resource => News end.

(** The [page_slug] attribute of the views that define it. *)
Definition view_page_slug (w : View) : option string :=
  match w with
  | VCommunityNewsList => Some CommunityNewsListView.page_slug
  | VCommunityNews => Some CommunityNewsView.page_slug
  | VCommunityResourceList => Some CommunityResourceListView.page_slug
  | VCommunityResource => Some CommunityResourceView.page_slug
  | _ => None
  end.

(** [get_community] of the views that define it. *)
Definition view_get_community (w : View) : option (M Instance) :=
  match w with
  | VCommunityNewsList => Some CommunityNewsListView.get_community
  | VCommunityNews => Some CommunityNewsView.get_community
  | VCommunityResourceList => Some CommunityResourceListView.get_community
  | VCommunityResource => Some CommunityResourceView.get_community
  | _ => None
  end.

(** The request [r] asking for page [n]. *)
Definition with_page (n : Z) (r : Request) : Request :=
  mkRequest (method r) (user r) (Some (PageInt n)) (POST_data r).

(** *** Sample data *)

(** The form fields of a post set from the submitted data. *)
Definition with_data (f : Form) (p : Post) : Post :=
  match form_data f with
  | Some d => mkPost (post_pk p) (data_slug d) (data_body d)
                     (post_community p) (post_author p)
  | None => p
  end.

(** Sample validations: all fields clean, and the form accepted or
    rejected as a whole. *)
Definition accept_all : Validator :=
  mkValidator (fun _ _ => true) (fun _ f p => with_data f p).
Definition reject_all : Validator :=
  mkValidator (fun _ _ => false) (fun _ f p => with_data f p).

Definition systers : Community := mkCommunity 1 "systers".
Definition outreach : Community := mkCommunity 2 "outreach".

(** A news post and a resource of the community [outreach], written by
    user 7. *)
Definition hello : Post := mkPost 1 "hello" "text" 2 7.
Definition guide : Post := mkPost 1 "guide" "text" 2 7.

Definition sample_db : DB := mkDB [systers; outreach] [hello] [guide].

Definition superuser : User := mkUser 9 true true [].
Definition second_superuser : User := mkUser 10 true true [].
Definition anonymous : User := mkUser 0 false false [].
Definition member : User := mkUser 5 true false [("add_community_news", 1)].

Definition sample_request (m : Method) (u : User) : Request :=
  mkRequest m u None (mkFormData "fresh" "body").

Definition sample_kwargs (s : string) : Kwargs := mkKwargs s "hello" "guide".

(** Seven news posts of [systers]. *)
Definition busy_db : DB :=
  mkDB [systers]
       [mkPost 1 "p1" "text" 1 7; mkPost 2 "p2" "text" 1 7;
        mkPost 3 "p3" "text" 1 7; mkPost 4 "p4" "text" 1 7;
        mkPost 5 "p5" "text" 1 7; mkPost 6 "p6" "text" 1 7;
        mkPost 7 "p7" "text" 1 7]
       [].

(** ** Proof tools *)

Ltac unfold_monad :=
  cbv beta iota zeta delta
    [bind ret raise get_self get_db put_db set_object set_community
     set_object_list log_perm self_community self_object
     self db perm_trace request kwargs object community object_list
     get_object_or_404 get_object_community get_object_post has_perm
     SingleObjectMixin_get_context_data MultipleObjectMixin_get_context_data
     ContextMixin_get_context_data form_clean
     View_dispatch LoginRequiredMixin_dispatch
     PermissionRequiredMixin_dispatch ModelFormMixin_get_form_kwargs
     get_form make_form ProcessFormView_get ProcessFormView_post
     form_is_valid init as_view dispatch
     kw_data kw_instance kw_author kw_community
     form_class_of form_data form_instance form_autofill].

Ltac unfold_views :=
  cbv beta iota zeta delta
    [CommunityNewsListView.dispatch CommunityNewsListView.get
     CommunityNewsListView.get_context_data CommunityNewsListView.get_queryset
     CommunityNewsListView.template_name CommunityNewsListView.paginate_by
     CommunityNewsListView.get_community CommunityNewsView.get_community
     CommunityResourceListView.get_community
     CommunityResourceView.get_community
     CommunityNewsView.dispatch CommunityNewsView.get
     CommunityNewsView.get_context_data CommunityNewsView.template_name
     AddCommunityNewsView.dispatch AddCommunityNewsView.get
     AddCommunityNewsView.post AddCommunityNewsView.get_context_data
     AddCommunityNewsView.get_form_kwargs AddCommunityNewsView.get_success_url
     AddCommunityNewsView.check_permissions AddCommunityNewsView.template_name
     AddCommunityNewsView.form_class AddCommunityNewsView.raise_exception
     EditCommunityNewsView.dispatch EditCommunityNewsView.get
     EditCommunityNewsView.post EditCommunityNewsView.get_context_data
     EditCommunityNewsView.get_form_kwargs EditCommunityNewsView.get_success_url
     EditCommunityNewsView.check_permissions EditCommunityNewsView.get_object
     EditCommunityNewsView.template_name EditCommunityNewsView.form_class
     EditCommunityNewsView.raise_exception EditCommunityNewsView.model
     DeleteCommunityNewsView.dispatch DeleteCommunityNewsView.get
     DeleteCommunityNewsView.post DeleteCommunityNewsView.get_context_data
     DeleteCommunityNewsView.get_success_url
     DeleteCommunityNewsView.check_permissions
     DeleteCommunityNewsView.get_object DeleteCommunityNewsView.template_name
     DeleteCommunityNewsView.raise_exception DeleteCommunityNewsView.model
     CommunityResourceListView.dispatch CommunityResourceListView.get
     CommunityResourceListView.get_context_data
     CommunityResourceListView.get_queryset
     CommunityResourceListView.template_name
     CommunityResourceListView.paginate_by
     CommunityResourceView.dispatch CommunityResourceView.get
     CommunityResourceView.get_context_data CommunityResourceView.template_name
     AddCommunityResourceView.dispatch AddCommunityResourceView.get
     AddCommunityResourceView.post AddCommunityResourceView.get_context_data
     AddCommunityResourceView.get_form_kwargs
     AddCommunityResourceView.get_success_url
     AddCommunityResourceView.check_permissions
     AddCommunityResourceView.template_name AddCommunityResourceView.form_class
     AddCommunityResourceView.raise_exception].

Ltac run := unfold_monad; unfold_views; unfold_monad.

(** Case analysis on the outcome of a slug lookup. *)
Ltac lookup_cases x E :=
  match goal with
  | |- context [queryset_get (filter_slug ?f ?s ?l)] =>
      destruct (queryset_get (filter_slug f s l)) as [x| |] eqn:E
  end.

Ltac absurd_outcome :=
  let H := fresh in unfold_monad; intros H; discriminate H.

(** ** Lookups by slug *)

Lemma queryset_get_found {A} (l : list A) (x : A) :
  queryset_get l = Found x <-> l = [x].
Proof.
  destruct l as [|a [|b l]]; simpl; split; intros H; inversion H; reflexivity.
Qed.

Lemma queryset_get_missing {A} (l : list A) :
  queryset_get l = DoesNotExist <-> l = [].
Proof.
  destruct l as [|a [|b l]]; simpl; split; intros H; inversion H; reflexivity.
Qed.

Lemma identified_by_get {A} (slug_of : A -> string) s tbl x :
  identified_by slug_of s tbl x ->
  queryset_get (filter_slug slug_of s tbl) = Found x.
Proof. intros H. apply queryset_get_found. exact H. Qed.

Lemma no_such_get {A} (slug_of : A -> string) s (tbl : list A) :
  no_such slug_of s tbl ->
  queryset_get (filter_slug slug_of s tbl) = DoesNotExist.
Proof. intros H. apply queryset_get_missing. exact H. Qed.

(** A row identified by a slug is a row of the table and has that slug. *)
Lemma identified_by_sound {A} (slug_of : A -> string) s tbl x :
  identified_by slug_of s tbl x -> In x tbl /\ slug_of x = s.
Proof.
  unfold identified_by, filter_slug. intros H.
  assert (Hin : In x (List.filter (fun y => String.eqb (slug_of y) s) tbl))
    by (rewrite H; left; reflexivity).
  apply filter_In in Hin. destruct Hin as [Hin Heq].
  split; [exact Hin | apply String.eqb_eq; exact Heq].
Qed.

(** ** The detail views *)

(** C1, as the code has it: when a detail view renders, [community] is the
    community identified by the slug of the URL and [post] is the News
    (respectively Resource) identified by the post slug of the URL among all
    rows of its table; [post_type] names the model. The lookup of the post
    does not involve the community. *)
Theorem detail_view_context (valid : Validator) (m : PostModel) (r : Request)
    (kw : Kwargs) (t : DB) (template : string) (context : Context) (st' : St) :
  as_view valid (detail_view m) r kw t
    = (inr (TemplateResponse template context), st') ->
  exists c p,
    identified_by community_slug (kwargs_slug kw) (communities t) c /\
    identified_by post_slug (kwargs_post_slug m kw) (objects m t) p /\
    context !! "community" = Some (VObj (ACommunity c)) /\
    context !! "post" = Some (VObj (APost p)) /\
    context !! "post_type" = Some (VStr (post_type m)) /\
    db st' = t.
Proof.
  destruct m; unfold detail_view; run.
  all: destruct (method r); [|absurd_outcome].
  all: lookup_cases c Ec; [|absurd_outcome..]; unfold_monad.
  all: lookup_cases p Ep; [|absurd_outcome..]; unfold_monad.
  all: intros H; inversion H; subst; clear H.
  all: exists c, p; apply queryset_get_found in Ec, Ep.
  all: repeat split; try assumption; reflexivity.
Qed.

Lemma detail_view_context_witness :
  exists c p,
    identified_by community_slug "systers" (communities sample_db) c /\
    identified_by post_slug "hello" (news sample_db) p /\
    context_lookup "community"
      (fst (as_view accept_all VCommunityNews (sample_request GET anonymous)
                    (sample_kwargs "systers") sample_db))
      = Some (VObj (ACommunity c)) /\
    context_lookup "post"
      (fst (as_view accept_all VCommunityNews (sample_request GET anonymous)
                    (sample_kwargs "systers") sample_db))
      = Some (VObj (APost p)).
Proof.
  destruct (as_view accept_all VCommunityNews (sample_request GET anonymous)
                    (sample_kwargs "systers") sample_db) as [x st'] eqn:E.
  assert (Hx : exists template context, x = inr (TemplateResponse template context)).
  { vm_compute in E. inversion E. eauto. }
  destruct Hx as (template & context & ->).
  destruct (detail_view_context accept_all News _ _ _ _ _ _ E)
    as (c & p & Hc & Hp & Hcc & Hcp & _).
  exists c, p. simpl. auto.
Defined.

(** The detail view of [systers] shows a news post of [outreach]. *)
Lemma detail_post_scoped_counterexample :
  ~ detail_post_scoped accept_all News (sample_request GET anonymous)
      (sample_kwargs "systers") sample_db.
Proof.
  unfold detail_post_scoped. intros H.
  destruct (as_view accept_all (detail_view News) (sample_request GET anonymous)
                    (sample_kwargs "systers") sample_db) as [x st'] eqn:E.
  assert (Hpost : context_lookup "post" x = Some (VObj (APost hello))).
  { vm_compute in E. inversion E. reflexivity. }
  assert (Hx : exists template context, x = inr (TemplateResponse template context)).
  { vm_compute in E. inversion E. eauto. }
  destruct Hx as (template & context & ->).
  destruct (H _ _ _ eq_refl) as (c & p & Hc & Hp & Hscope).
  simpl in Hpost. rewrite Hp in Hpost. inversion Hpost; subst p.
  apply identified_by_sound in Hc. destruct Hc as [Hin Hslug].
  simpl in Hin. destruct Hin as [<- | [<- | []]]; discriminate.
Qed.

(** The detail view renders whenever both lookups succeed. *)
Lemma detail_view_renders (valid : Validator) (m : PostModel) (r : Request)
    (kw : Kwargs) (t : DB) (c : Community) (p : Post) :
  method r = GET ->
  identified_by community_slug (kwargs_slug kw) (communities t) c ->
  identified_by post_slug (kwargs_post_slug m kw) (objects m t) p ->
  exists context,
    fst (as_view valid (detail_view m) r kw t)
      = inr (TemplateResponse "blog/post.html" context) /\
    context !! "post" = Some (VObj (APost p)).
Proof.
  intros Hm Hc Hp. apply identified_by_get in Hc, Hp.
  destruct m; unfold detail_view; run; rewrite Hm.
  all: rewrite Hc; unfold_monad; simpl in Hp; rewrite Hp; unfold_monad.
  all: eexists; split; reflexivity.
Qed.

(** ** The list views *)

Lemma filter_community_spec (c : Community) (l : list Post) (p : Post) :
  In p (filter_community c l) <-> In p l /\ post_community p = community_pk c.
Proof.
  unfold filter_community. rewrite filter_In, Nat.eqb_eq. reflexivity.
Qed.

Lemma page_items_length {A} (per_page number : nat) (l : list A) :
  length (page_items per_page number l) <= per_page.
Proof.
  unfold page_items.
  etransitivity; [apply firstn_le_length|].
  destruct (length l <=? (number - 1) * per_page + per_page) eqn:E.
  - apply Nat.leb_le in E. lia.
  - lia.
Qed.

Lemma page_items_In {A} (per_page number : nat) (l : list A) (x : A) :
  In x (page_items per_page number l) -> In x l.
Proof.
  unfold page_items. intros H.
  set (bottom := (number - 1) * per_page) in *.
  rewrite <- (firstn_skipn bottom l). apply in_or_app. right.
  match type of H with
  | In _ (firstn ?k ?q) => rewrite <- (firstn_skipn k q)
  end.
  apply in_or_app. left. exact H.
Qed.

(** Pagination never touches the state: it fails with a 404 or yields one
    page of the queryset. *)
Lemma paginate_queryset_cases (q : list Post) (page_size : nat) (st : St) :
  paginate_queryset q page_size st = (inl Http404, st) \/
  exists number is_paginated,
    paginate_queryset q page_size st
      = (inr (number, page_items page_size (Z.to_nat number) q, is_paginated), st).
Proof.
  unfold paginate_queryset; unfold_monad.
  destruct (GET_page _) as [[n| | |]|]; unfold_monad.
  2, 5: destruct (1 <? 1)%Z eqn:E1; [discriminate E1|].
  all: repeat match goal with
       | |- context [if ?b then _ else _] => destruct b
       end; unfold_monad; eauto.
Qed.

(** Without a [page] parameter the first page is served. *)
Lemma paginate_queryset_default (q : list Post) (page_size : nat) (st : St) :
  GET_page (request (self st)) = None ->
  1 <= page_size ->
  exists is_paginated,
    paginate_queryset q page_size st
      = (inr (1%Z, page_items page_size 1 q, is_paginated), st).
Proof.
  intros Hp Hs. unfold paginate_queryset; unfold_monad.
  cbv beta iota zeta delta [self request] in Hp. rewrite Hp. unfold_monad.
  change (1 <? 1)%Z with false. cbv iota.
  assert (Hn : 1 <= num_pages page_size (length q)).
  { unfold num_pages. apply Nat.div_str_pos. lia. }
  destruct (Z.ltb_spec (Z.of_nat (num_pages page_size (length q))) 1) as [Hlt|Hge];
    [lia|].
  cbn [andb]. eauto.
Qed.

Ltac paginate_cases n b :=
  match goal with
  | |- context [paginate_queryset ?q ?k ?s] =>
      let E := fresh "E" in
      destruct (paginate_queryset_cases q k s) as [E | (n & b & E)]; rewrite E
  end.

(** C8: on a GET request naming an existing community, the queryset of a
    list view is exactly the rows of its model whose community foreign key is
    that community: nothing of another community is in it and nothing of this
    community is left out. What is rendered is a page of that queryset, the
    first page when no page is asked for, and the tables are left as they
    were. *)
Theorem list_view_queryset (valid : Validator) (m : PostModel) (r : Request)
    (kw : Kwargs) (t : DB) (c : Community) :
  method r = GET ->
  identified_by community_slug (kwargs_slug kw) (communities t) c ->
  let x := as_view valid (list_view m) r kw t in
  object_list (self (snd x)) = filter_community c (objects m t) /\
  (forall p, In p (object_list (self (snd x))) <->
             In p (objects m t) /\ post_community p = community_pk c) /\
  db (snd x) = t /\
  (forall template context,
     fst x = inr (TemplateResponse template context) ->
     exists number,
       context !! "object_list"
         = Some (VList (page_items 5 number (filter_community c (objects m t))))) /\
  (GET_page r = None ->
     exists context,
       fst x = inr (TemplateResponse "blog/post_list.html" context) /\
       context !! "object_list"
         = Some (VList (page_items 5 1 (filter_community c (objects m t))))).
Proof.
  intros Hm Hc x.
  assert (Hq : object_list (self (snd x)) = filter_community c (objects m t) /\
               db (snd x) = t /\
               (forall template context,
                  fst x = inr (TemplateResponse template context) ->
                  exists number,
                    context !! "object_list"
                      = Some (VList (page_items 5 number
                                       (filter_community c (objects m t)))))).
  { subst x. apply identified_by_get in Hc.
    destruct m; unfold list_view; run; rewrite Hm, Hc; unfold_monad.
    all: paginate_cases n b; unfold_monad; cbn [fst snd].
    all: repeat split; try reflexivity; intros template context H.
    all: try discriminate H.
    all: inversion H; exists (Z.to_nat n); reflexivity. }
  destruct Hq as (Hl & Hd & Hr).
  split; [exact Hl|]. split; [|split; [exact Hd|split; [exact Hr|]]].
  - intros p. rewrite Hl. apply filter_community_spec.
  - intros Hp. subst x. apply identified_by_get in Hc.
    destruct m; unfold list_view; run; rewrite Hm, Hc; unfold_monad.
    all: match goal with
         | |- context [paginate_queryset ?q ?k ?s] =>
             destruct (paginate_queryset_default q k s Hp) as [b E];
               [unfold CommunityNewsListView.paginate_by; lia|rewrite E]
         end.
    all: unfold_monad; cbn [fst]; eexists; split; reflexivity.
Qed.

Lemma list_view_queryset_witness :
  object_list (self (snd (as_view accept_all VCommunityNewsList
                            (sample_request GET anonymous)
                            (sample_kwargs "outreach") sample_db)))
    = [hello] /\
  object_list (self (snd (as_view accept_all VCommunityNewsList
                            (sample_request GET anonymous)
                            (sample_kwargs "systers") sample_db)))
    = [].
Proof.
  split.
  - exact (proj1 (list_view_queryset accept_all News
                    (sample_request GET anonymous) (sample_kwargs "outreach")
                    sample_db outreach eq_refl eq_refl)).
  - exact (proj1 (list_view_queryset accept_all News
                    (sample_request GET anonymous) (sample_kwargs "systers")
                    sample_db systers eq_refl eq_refl)).
Defined.

(** C9: every page a list view renders holds at most 5 posts. *)
Theorem list_view_page_size (valid : Validator) (m : PostModel) (r : Request)
    (kw : Kwargs) (t : DB) (template : string) (context : Context) (st' : St) :
  as_view valid (list_view m) r kw t
    = (inr (TemplateResponse template context), st') ->
  exists items,
    context !! "object_list" = Some (VList items) /\
    length items <= 5 /\
    (forall p, In p items -> In p (objects m t)).
Proof.
  destruct m; unfold list_view; run.
  all: destruct (method r); [|absurd_outcome].
  all: lookup_cases c Ec; [|absurd_outcome..]; unfold_monad.
  all: paginate_cases n b; unfold_monad; [absurd_outcome|].
  all: intros H; inversion H; subst; clear H.
  all: eexists; split; [reflexivity|]; split; [apply page_items_length|].
  all: intros p Hp; apply page_items_In, filter_community_spec in Hp; apply Hp.
Qed.

Lemma list_view_page_size_witness :
  exists items,
    context_lookup "object_list"
      (fst (as_view accept_all VCommunityNewsList (sample_request GET anonymous)
                    (sample_kwargs "systers") busy_db))
      = Some (VList items) /\
    length items <= 5 /\
    length (news busy_db) = 7.
Proof.
  destruct (as_view accept_all VCommunityNewsList (sample_request GET anonymous)
                    (sample_kwargs "systers") busy_db) as [x st'] eqn:E.
  assert (Hx : exists template context, x = inr (TemplateResponse template context)).
  { vm_compute in E. inversion E. eauto. }
  destruct Hx as (template & context & ->).
  destruct (list_view_page_size accept_all News _ _ _ _ _ _ E)
    as (items & Hl & Hn & _).
  exists items. simpl. auto.
Defined.

(** ** Permission checks of the mutating views *)

Lemma check_permissions_defined (w : View) :
  is_mutating w = true <->
  exists chk perm, check_permissions w = Some chk /\ view_permission w = Some perm.
Proof.
  split.
  - destruct w; simpl; intros H; try discriminate H; eauto.
  - intros (chk & perm & H & _). destruct w; simpl in *; congruence.
Qed.

(** C4: an authenticated user without the permission of a mutating view on
    the community of the URL gets the PermissionDenied exception, whatever
    the request method, and the tables are left as they were. *)
Theorem permission_denied_unchanged (valid : Validator) (w : View) (r : Request)
    (kw : Kwargs) (t : DB) (c : Community) (perm : string) :
  view_permission w = Some perm ->
  is_authenticated (user r) = true ->
  identified_by community_slug (kwargs_slug kw) (communities t) c ->
  user_has_perm (user r) perm c = false ->
  fst (as_view valid w r kw t) = inl PermissionDenied /\
  db (snd (as_view valid w r kw t)) = t.
Proof.
  intros Hw Ha Hc Hp. apply identified_by_get in Hc.
  destruct w; simpl in Hw; inversion Hw; subst perm; clear Hw.
  all: run; rewrite Ha, Hc; unfold_monad; rewrite Hp.
  all: split; reflexivity.
Qed.

Lemma permission_denied_unchanged_witness :
  fst (as_view accept_all VAddCommunityNews (sample_request POST member)
               (sample_kwargs "outreach") sample_db) = inl PermissionDenied /\
  db (snd (as_view accept_all VAddCommunityNews (sample_request POST member)
                   (sample_kwargs "outreach") sample_db)) = sample_db.
Proof.
  apply (permission_denied_unchanged accept_all VAddCommunityNews
           (sample_request POST member) (sample_kwargs "outreach") sample_db
           outreach "add_community_news");
    reflexivity.
Defined.

(** C5, as the code has it: when no community has the slug of the URL, no
    view writes to the tables; a GET request to a list or detail view and any
    request of an authenticated user to a mutating view fail with a 404; a
    request of an unauthenticated user to a mutating view is refused with
    PermissionDenied before the community is looked up, and a POST request
    to a list or detail view is answered "method not allowed". *)
Theorem missing_community_outcome (valid : Validator) (w : View) (r : Request)
    (kw : Kwargs) (t : DB) :
  no_such community_slug (kwargs_slug kw) (communities t) ->
  let x := as_view valid w r kw t in
  db (snd x) = t /\
  (is_mutating w = false -> method r = GET -> fst x = inl Http404) /\
  (is_mutating w = true -> is_authenticated (user r) = true ->
     fst x = inl Http404) /\
  (is_mutating w = true -> is_authenticated (user r) = false ->
     fst x = inl PermissionDenied) /\
  (is_mutating w = false -> method r = POST ->
     fst x = inr HttpResponseNotAllowed).
Proof.
  intros Hc x. subst x. apply no_such_get in Hc.
  destruct w; cbn [is_mutating]; run.
  1, 2, 6, 7: destruct (method r); rewrite ?Hc; unfold_monad; cbn [fst snd];
    repeat split; intros; congruence.
  all: destruct (is_authenticated (user r)); rewrite ?Hc; unfold_monad;
    cbn [fst snd]; repeat split; intros; congruence.
Qed.

Lemma missing_community_outcome_witness :
  fst (as_view accept_all VCommunityNewsList (sample_request GET anonymous)
               (sample_kwargs "nowhere") sample_db) = inl Http404 /\
  fst (as_view accept_all VEditCommunityNews (sample_request POST member)
               (sample_kwargs "nowhere") sample_db) = inl Http404.
Proof.
  split.
  - destruct (missing_community_outcome accept_all VCommunityNewsList
                (sample_request GET anonymous) (sample_kwargs "nowhere")
                sample_db eq_refl) as (_ & H & _).
    exact (H eq_refl eq_refl).
  - destruct (missing_community_outcome accept_all VEditCommunityNews
                (sample_request POST member) (sample_kwargs "nowhere")
                sample_db eq_refl) as (_ & _ & H & _).
    exact (H eq_refl eq_refl).
Defined.

(** An unauthenticated POST to the add-news view with an unknown community
    slug is refused with PermissionDenied, not with a 404. *)
Lemma missing_community_is_404_counterexample :
  ~ missing_community_is_404 accept_all VAddCommunityNews
      (sample_request POST anonymous) (sample_kwargs "nowhere") sample_db.
Proof.
  unfold missing_community_is_404. intros H.
  destruct (H eq_refl) as [H404 _].
  vm_compute in H404. discriminate H404.
Qed.

(** C6: for a superuser and an existing community, the permission check of
    every mutating view returns true, and the view does not end in
    PermissionDenied for an authenticated superuser. *)
Theorem superuser_has_permission (w : View) (chk : M bool) (st : St)
    (c : Community) :
  check_permissions w = Some chk ->
  is_superuser (user (request (self st))) = true ->
  identified_by community_slug (kwargs_slug (kwargs (self st)))
                (communities (db st)) c ->
  fst (chk st) = inr true /\
  (forall valid r kw t,
     st = init r kw t ->
     is_authenticated (user r) = true ->
     fst (as_view valid w r kw t) <> inl PermissionDenied).
Proof.
  intros Hw Hs Hc. apply identified_by_get in Hc.
  destruct st as [[r0 kw0 o0 c0 l0] t0 tr0].
  cbv beta iota delta [self db request kwargs] in Hs, Hc.
  split.
  - destruct w; simpl in Hw; inversion Hw; subst chk; clear Hw.
    all: run; rewrite Hc; unfold_monad; unfold user_has_perm; rewrite Hs.
    all: reflexivity.
  - intros valid r kw t Hst Ha. inversion Hst; subst; clear Hst.
    destruct w; simpl in Hw; inversion Hw; subst chk; clear Hw.
    all: run; rewrite Ha, Hc; unfold_monad; unfold user_has_perm; rewrite Hs.
    all: cbn [orb]; cbv iota.
    all: unfold form_save; unfold_monad.
    all: repeat match goal with
         | |- context [match method ?x with _ => _ end] => destruct (method x)
         | |- context [queryset_get ?l] => destruct (queryset_get l)
         | |- context [if ?b then _ else _] => destruct b
         | |- context [insert_post ?p ?l] => destruct (insert_post p l)
         | |- _ => progress unfold_monad
         end.
    all: cbn [fst]; congruence.
Qed.

Lemma superuser_has_permission_witness :
  fst (DeleteCommunityNewsView.check_permissions
         (init (sample_request POST superuser) (sample_kwargs "systers") sample_db))
    = inr true.
Proof.
  apply (superuser_has_permission VDeleteCommunityNews
           DeleteCommunityNewsView.check_permissions
           (init (sample_request POST superuser) (sample_kwargs "systers") sample_db)
           systers);
    reflexivity.
Defined.

(** C10, as the code has it: in every mutating view [check_permissions]
    looks the community up before it evaluates the permission.  With an
    unknown community slug it raises the 404 for every request user and
    evaluates nothing; whenever it fails, nothing was evaluated; whenever it
    returns, [self.community] is the community identified by the slug of the
    URL and the one evaluation made is that of the view's permission string
    against this community.  At the level of requests the 404 is what every
    authenticated user gets, whatever the permissions held. *)
Theorem check_permissions_order (w : View) (chk : M bool) (perm : string) (st : St) :
  check_permissions w = Some chk ->
  view_permission w = Some perm ->
  let u := user (request (self st)) in
  let s := kwargs_slug (kwargs (self st)) in
  (no_such community_slug s (communities (db st)) -> chk st = (inl Http404, st)) /\
  (forall e st', chk st = (inl e, st') -> st' = st) /\
  (forall b st',
     chk st = (inr b, st') ->
     exists c,
       identified_by community_slug s (communities (db st)) c /\
       community (self st') = Some c /\
       perm_trace st' = perm_trace st ++ [mkPermCall u perm c] /\
       b = user_has_perm u perm c /\
       db st' = db st) /\
  (forall valid r kw t,
     is_authenticated (user r) = true ->
     no_such community_slug (kwargs_slug kw) (communities t) ->
     as_view valid w r kw t = (inl Http404, init r kw t)).
Proof.
  intros Hw Hp u s. subst u s.
  destruct st as [[r0 kw0 o0 c0 l0] t0 tr0].
  cbv beta iota delta [self db request kwargs perm_trace community].
  destruct w; simpl in Hw, Hp; inversion Hw; inversion Hp; subst; clear Hw Hp.
  all: repeat split.
  all: try (intros Hc; apply no_such_get in Hc; run; rewrite Hc; reflexivity).
  all: try (intros e st'; run; lookup_cases c Ec; unfold_monad;
            intros H; inversion H; reflexivity).
  all: try (intros b st'; run; lookup_cases c Ec; unfold_monad;
            intros H; inversion H; subst; clear H;
            exists c; apply queryset_get_found in Ec;
            repeat split; [exact Ec]).
  all: intros valid r kw t Ha Hc; apply no_such_get in Hc.
  all: run; rewrite Ha, Hc; reflexivity.
Qed.

Lemma check_permissions_order_witness :
  exists c,
    community (self (snd (AddCommunityNewsView.check_permissions
                            (init (sample_request POST member)
                                  (sample_kwargs "outreach") sample_db))))
      = Some c /\
    community_slug c = "outreach" /\
    perm_trace (snd (AddCommunityNewsView.check_permissions
                       (init (sample_request POST member)
                             (sample_kwargs "outreach") sample_db)))
      = [mkPermCall member "add_community_news" c].
Proof.
  destruct (AddCommunityNewsView.check_permissions
              (init (sample_request POST member) (sample_kwargs "outreach")
                    sample_db)) as [x st'] eqn:E.
  assert (Hx : exists b, x = inr b).
  { vm_compute in E. inversion E. eauto. }
  destruct Hx as [b ->].
  destruct (check_permissions_order VAddCommunityNews
              AddCommunityNewsView.check_permissions "add_community_news"
              (init (sample_request POST member) (sample_kwargs "outreach")
                    sample_db) eq_refl eq_refl) as (_ & _ & H & _).
  destruct (H b st' E) as (c & Hc & Hself & Htrace & _).
  exists c. cbn [snd]. split; [exact Hself|]. split; [|exact Htrace].
  apply identified_by_sound in Hc. apply Hc.
Defined.

(** An unauthenticated GET of the delete view with an unknown community slug
    is refused with PermissionDenied, not with a 404. *)
Lemma missing_community_is_404_for_counterexample :
  ~ missing_community_is_404_for accept_all VDeleteCommunityNews anonymous.
Proof.
  unfold missing_community_is_404_for. intros H.
  specialize (H (sample_request GET anonymous) (sample_kwargs "nowhere")
                sample_db eq_refl eq_refl).
  vm_compute in H. discriminate H.
Qed.

(** ** Form submissions *)

Lemma update_post_In (p0 p : Post) (l : list Post) :
  In p0 l -> post_pk p = post_pk p0 -> In p (update_post p l).
Proof.
  intros Hin Hpk. unfold update_post. apply in_map_iff.
  exists p0. split; [|exact Hin].
  rewrite Hpk, Nat.eqb_refl. reflexivity.
Qed.

Lemma edited_pk (valid : Validator) (t : DB) (d : FormData) (p0 p : Post) :
  edited valid t d p0 = Some p -> post_pk p = post_pk p0.
Proof. unfold edited, form_clean. simpl. intros H. inversion H. reflexivity. Qed.

(** Every redirect of the edit view comes from an accepted POST that saved
    the instance of the form. *)
Lemma edit_view_redirect (valid : Validator) (r : Request) (kw : Kwargs)
    (t : DB) (url : Url) (st' : St) :
  as_view valid VEditCommunityNews r kw t = (inr (HttpResponseRedirect url), st') ->
  exists c p0 p,
    identified_by community_slug (kwargs_slug kw) (communities t) c /\
    identified_by post_slug (kwargs_news_slug kw) (news t) p0 /\
    edited valid t (POST_data r) p0 = Some p /\
    object (self st') = Some (APost p) /\
    db st' = set_objects News (update_post p (news t)) t.
Proof.
  run.
  destruct (is_authenticated (user r)); [unfold_monad|absurd_outcome].
  lookup_cases c Ec; [|absurd_outcome..]; unfold_monad.
  destruct (user_has_perm (user r) _ c); [unfold_monad|absurd_outcome].
  destruct (method r) eqn:Em; unfold_monad.
  all: lookup_cases p0 Ep; [|absurd_outcome..]; unfold_monad.
  all: rewrite Em; unfold_monad.
  1: absurd_outcome.
  destruct (valid t _); [|absurd_outcome].
  unfold form_save; unfold_monad.
  intros H; inversion H; subst; clear H.
  apply queryset_get_found in Ec, Ep.
  eexists c, p0, _. repeat split; try reflexivity; assumption.
Qed.

(** An accepted POST to the edit view saves and redirects. *)
Lemma edit_view_saves (valid : Validator) (r : Request) (kw : Kwargs) (t : DB)
    (c : Community) (p0 : Post) :
  method r = POST ->
  is_authenticated (user r) = true ->
  identified_by community_slug (kwargs_slug kw) (communities t) c ->
  user_has_perm (user r) "change_community_news" c = true ->
  identified_by post_slug (kwargs_news_slug kw) (news t) p0 ->
  valid t (mkForm EditNewsForm (Some (POST_data r)) (Some p0) None) = true ->
  exists url st' p,
    as_view valid VEditCommunityNews r kw t
      = (inr (HttpResponseRedirect url), st') /\
    edited valid t (POST_data r) p0 = Some p /\
    url = reverse "view_community_news"
                  [("slug", community_slug c); ("news_slug", post_slug p)] /\
    object (self st') = Some (APost p) /\
    db st' = set_objects News (update_post p (news t)) t.
Proof.
  intros Hm Ha Hc Hp Hp0 Hv. apply identified_by_get in Hc, Hp0.
  change (news t) with (objects News t) in Hp0.
  run. rewrite Ha, Hc; unfold_monad. rewrite Hp, Hm; unfold_monad.
  rewrite Hp0; unfold_monad. rewrite Hm, Hv. unfold form_save; unfold_monad.
  eexists _, _, _. repeat split; reflexivity.
Qed.

(** C3, as the code has it: after a successful submission to an add view
    the new record carries the community identified by the slug of the URL
    and the requesting user as author, neither taken from the submitted
    data.  The edit view hands its form neither the requesting user nor the
    community of the URL: what a successful edit saves is the record
    identified by the news slug as the form made it from the submitted data,
    the same whoever submits and whatever community the URL names. *)
Theorem saved_record_fields (valid : Validator) (r : Request) (kw : Kwargs)
    (t : DB) (url : Url) (st' : St) :
  (forall m,
     as_view valid (add_view m) r kw t = (inr (HttpResponseRedirect url), st') ->
     exists c p,
       identified_by community_slug (kwargs_slug kw) (communities t) c /\
       object (self st') = Some (APost p) /\
       objects m (db st') = objects m t ++ [p] /\
       post_community p = community_pk c /\
       post_author p = user_pk (user r) /\
       post_slug p = data_slug (POST_data r) /\
       post_body p = data_body (POST_data r)) /\
  (as_view valid VEditCommunityNews r kw t = (inr (HttpResponseRedirect url), st') ->
   exists p0 p,
     identified_by post_slug (kwargs_news_slug kw) (news t) p0 /\
     object (self st') = Some (APost p) /\
     news (db st') = update_post p (news t) /\
     In p (news (db st')) /\
     post_pk p = post_pk p0 /\
     forall r2 kw2 url2 st2,
       POST_data r2 = POST_data r ->
       kwargs_news_slug kw2 = kwargs_news_slug kw ->
       as_view valid VEditCommunityNews r2 kw2 t
         = (inr (HttpResponseRedirect url2), st2) ->
       object (self st2) = Some (APost p) /\
       news (db st2) = news (db st')).
Proof.
  split.
  - intros m. destruct m; unfold add_view; run.
    all: destruct (is_authenticated (user r)); [unfold_monad|absurd_outcome].
    all: lookup_cases c Ec; [|absurd_outcome..]; unfold_monad.
    all: destruct (user_has_perm (user r) _ c); [unfold_monad|absurd_outcome].
    all: destruct (method r) eqn:Em; unfold_monad; rewrite ?Em;
      [absurd_outcome|unfold_monad].
    all: destruct (valid t _); [|absurd_outcome].
    all: unfold form_save, insert_post; unfold_monad.
    all: intros H; inversion H; subst; clear H.
    all: apply queryset_get_found in Ec.
    all: eexists c, _; repeat split; try reflexivity; exact Ec.
  - intros E.
    destruct (edit_view_redirect _ _ _ _ _ _ E) as (c & p0 & p & _ & Hp0 & Hp & Ho & Hd).
    exists p0, p. split; [exact Hp0|]. split; [exact Ho|].
    pose proof (edited_pk _ _ _ _ _ Hp) as Hpk.
    rewrite Hd. cbn [news set_objects].
    split; [reflexivity|]. split; [|split; [exact Hpk|]].
    + apply update_post_In with (p0 := p0); [|exact Hpk].
      apply identified_by_sound in Hp0. apply Hp0.
    + intros r2 kw2 url2 st2 Hdata Hslug E2.
      destruct (edit_view_redirect _ _ _ _ _ _ E2)
        as (c2 & q0 & q & _ & Hq0 & Hq & Ho2 & Hd2).
      unfold identified_by in Hp0, Hq0. rewrite Hslug, Hp0 in Hq0.
      inversion Hq0; subst q0. rewrite Hdata, Hp in Hq. inversion Hq; subst q.
      rewrite Ho2, Hd2. split; reflexivity.
Qed.

Lemma saved_record_fields_witness :
  exists p,
    object (self (snd (as_view accept_all VAddCommunityNews
                         (sample_request POST member) (sample_kwargs "systers")
                         sample_db)))
      = Some (APost p) /\
    post_community p = community_pk systers /\
    post_author p = user_pk member.
Proof.
  destruct (as_view accept_all VAddCommunityNews (sample_request POST member)
                    (sample_kwargs "systers") sample_db) as [x st'] eqn:E.
  assert (Hx : exists url, x = inr (HttpResponseRedirect url)).
  { vm_compute in E. inversion E. eauto. }
  destruct Hx as [url ->].
  destruct (proj1 (saved_record_fields accept_all (sample_request POST member)
                     (sample_kwargs "systers") sample_db url st') News E)
    as (c & p & Hc & Ho & _ & Hpc & Hpa & _).
  exists p. cbn [snd]. split; [exact Ho|]. split; [|exact Hpa].
  rewrite Hpc. apply identified_by_sound in Hc. destruct Hc as [Hin Hs].
  simpl in Hin. destruct Hin as [<- | [<- | []]]; [reflexivity | discriminate Hs].
Defined.

(** Two superusers submit the same edit of the same news post.  Whatever
    the edit form does with the submitted data, if it accepts them the two
    saved records are the same record, so its author is not the requesting
    user both times. *)
Lemma saved_record_autofilled_counterexample :
  ~ exists valid : Validator,
      valid sample_db (mkForm EditNewsForm (Some (mkFormData "fresh" "body"))
                              (Some hello) None) = true /\
      saved_record_autofilled valid VEditCommunityNews
        (sample_request POST superuser) (sample_kwargs "systers") sample_db /\
      saved_record_autofilled valid VEditCommunityNews
        (sample_request POST second_superuser) (sample_kwargs "systers")
        sample_db.
Proof.
  intros (valid & Hv & H1 & H2).
  destruct (edit_view_saves valid (sample_request POST superuser)
              (sample_kwargs "systers") sample_db systers hello
              eq_refl eq_refl eq_refl eq_refl eq_refl Hv)
    as (url1 & st1 & p1 & E1 & Hp1 & _ & Ho1 & _).
  destruct (edit_view_saves valid (sample_request POST second_superuser)
              (sample_kwargs "systers") sample_db systers hello
              eq_refl eq_refl eq_refl eq_refl eq_refl Hv)
    as (url2 & st2 & p2 & E2 & Hp2 & _ & Ho2 & _).
  destruct (H1 _ _ E1) as (c1 & q1 & _ & Hq1 & _ & Ha1).
  destruct (H2 _ _ E2) as (c2 & q2 & _ & Hq2 & _ & Ha2).
  rewrite Ho1 in Hq1. rewrite Ho2 in Hq2.
  inversion Hq1; subst q1. inversion Hq2; subst q2.
  cbn [sample_request POST_data] in Hp1, Hp2. rewrite Hp1 in Hp2.
  inversion Hp2; subst p2.
  rewrite Ha1 in Ha2. discriminate Ha2.
Qed.

(** ** Redirects after a successful submission *)



(** ** News views and resource views *)

Lemma swap_perm_involutive (s : string) : swap_perm (swap_perm s) = s.
Proof.
  unfold swap_perm.
  destruct (String.eqb_spec s "add_community_news") as [->|Hn]; [reflexivity|].
  destruct (String.eqb_spec s "add_community_resource") as [->|Hr]; [reflexivity|].
  apply String.eqb_neq in Hn, Hr. rewrite Hn, Hr. reflexivity.
Qed.

Lemma swap_user_involutive (u : User) : swap_user (swap_user u) = u.
Proof.
  destruct u as [pk a s l]. unfold swap_user. cbn [user_pk is_authenticated
    is_superuser object_perms]. f_equal.
  induction l as [|[p c] l IH]; [reflexivity|].
  cbn [map fst snd]. rewrite swap_perm_involutive. f_equal. exact IH.
Qed.

Lemma swap_request_involutive (r : Request) : swap_request (swap_request r) = r.
Proof.
  destruct r as [m u g d]. unfold swap_request.
  cbn [method user GET_page POST_data]. rewrite swap_user_involutive. reflexivity.
Qed.

Lemma swap_kwargs_involutive (kw : Kwargs) : swap_kwargs (swap_kwargs kw) = kw.
Proof. destruct kw. reflexivity. Qed.

Lemma swap_db_involutive (t : DB) : swap_db (swap_db t) = t.
Proof. destruct t. reflexivity. Qed.

Lemma swap_perm_add_news (s : string) :
  String.eqb (swap_perm s) "add_community_news"
    = String.eqb s "add_community_resource".
Proof.
  unfold swap_perm.
  destruct (String.eqb_spec s "add_community_news") as [->|Hn]; [reflexivity|].
  destruct (String.eqb_spec s "add_community_resource") as [->|Hr]; [reflexivity|].
  apply String.eqb_neq. exact Hn.
Qed.

(** Holding [add_community_resource] is, after the exchange, holding
    [add_community_news]. *)
Lemma user_has_perm_swap (u : User) (c : Community) :
  user_has_perm (swap_user u) "add_community_news" c
    = user_has_perm u "add_community_resource" c.
Proof.
  unfold user_has_perm, swap_user. cbn [is_superuser object_perms]. f_equal.
  induction (object_perms u) as [|g l IH]; [reflexivity|].
  cbn [map existsb fst snd]. rewrite IH, swap_perm_add_news. reflexivity.
Qed.

Lemma is_authenticated_swap (u : User) :
  is_authenticated (swap_user u) = is_authenticated u.
Proof. reflexivity. Qed.

Ltac swap_simpl :=
  cbn [swap_outcome swap_response swap_st swap_self swap_request swap_kwargs
       swap_db swap_url swap_call swap_form swap_form_class
       fst snd self db perm_trace request kwargs object community object_list
       method user GET_page POST_data kwargs_slug kwargs_news_slug
       kwargs_resource_slug communities news resources
       url_name url_kwargs call_user call_perm call_obj
       form_class_of form_data form_instance form_autofill map].

Ltac mirror_start r kw t :=
  destruct r as [m u gp pd], kw as [s ns rs], t as [cs ns' rs']; run; swap_simpl.

Ltac mirror_step :=
  unfold_monad; swap_simpl; try reflexivity.

Lemma list_views_mirror (valid : Validator) (r : Request) (kw : Kwargs) (t : DB) :
  swap_outcome (as_view (swap_validator valid) VCommunityResourceList r kw t)
    = as_view valid VCommunityNewsList (swap_request r) (swap_kwargs kw) (swap_db t).
Proof.
  mirror_start r kw t.
  destruct m; mirror_step.
  lookup_cases c Ec; mirror_step.
  unfold paginate_queryset; mirror_step.
  destruct gp as [[n| | |]|]; mirror_step.
  all: repeat match goal with
       | |- context [if ?b then _ else _] => destruct b
       end; mirror_step.
  all: rewrite !fmap_insert, fmap_empty; reflexivity.
Qed.

Lemma detail_views_mirror (valid : Validator) (r : Request) (kw : Kwargs) (t : DB) :
  swap_outcome (as_view (swap_validator valid) VCommunityResource r kw t)
    = as_view valid VCommunityNews (swap_request r) (swap_kwargs kw) (swap_db t).
Proof.
  mirror_start r kw t.
  destruct m; mirror_step.
  lookup_cases c Ec; mirror_step.
  lookup_cases p Ep; mirror_step.
  all: rewrite !fmap_insert, fmap_empty; reflexivity.
Qed.

Lemma add_views_mirror (valid : Validator) (r : Request) (kw : Kwargs) (t : DB) :
  swap_outcome (as_view (swap_validator valid) VAddCommunityResource r kw t)
    = as_view valid VAddCommunityNews (swap_request r) (swap_kwargs kw) (swap_db t).
Proof.
  mirror_start r kw t. rewrite is_authenticated_swap.
  destruct (is_authenticated u); mirror_step.
  lookup_cases c Ec; mirror_step.
  rewrite user_has_perm_swap.
  destruct (user_has_perm u _ c); mirror_step.
  destruct m; mirror_step.
  unfold swap_validator; cbn [validate clean_instance]; swap_simpl.
  destruct (valid _ _); mirror_step.
Qed.

(** C2, as the code has it: a news view and a resource view both exist for
    the list, detail and create operations and for no other; update and
    delete exist for news alone.  For those three operations the resource
    view is the news view with the two models exchanged: its [page_slug] is
    ['resources'] where the news view has ['news'], and its outcome, read
    with [news] for [resource] in [post_type], in the view class under
    [view], in the permission string, in the name and keyword of the redirect
    URL and in the form class, is the outcome of the news view on the
    exchanged tables and URL keywords. *)
Theorem resource_views_mirror_news :
  (forall op,
     both_models_provided op <-> op = OpList \/ op = OpDetail \/ op = OpCreate) /\
  (forall w w',
     resource_counterpart w = Some w' ->
     view_op w' = view_op w /\
     view_post_model w = News /\
     view_post_model w' = Resource /\
     swap_view w' = w /\
     view_page_slug w' = option_map swap_page_slug (view_page_slug w) /\
     (view_op w <> OpCreate ->
      view_page_slug w = Some "news" /\ view_page_slug w' = Some "resources") /\
     forall valid r kw t,
       swap_outcome (as_view (swap_validator valid) w' r kw t)
         = as_view valid w (swap_request r) (swap_kwargs kw) (swap_db t)).
Proof.
  split.
  - intros op. split.
    + intros (wn & wr & Hn & _ & Hr & Hm).
      destruct wr; simpl in Hm; try discriminate Hm; simpl in Hr; subst op; auto.
    + intros [-> | [-> | ->]].
      * exists VCommunityNewsList, VCommunityResourceList. repeat split.
      * exists VCommunityNews, VCommunityResource. repeat split.
      * exists VAddCommunityNews, VAddCommunityResource. repeat split.
  - intros w w' H.
    destruct w; simpl in H; inversion H; subst w'; clear H.
    all: repeat split.
    all: try match goal with
         | Hop : view_op _ <> OpCreate |- _ =>
             exfalso; apply Hop; reflexivity
         end.
    + apply list_views_mirror.
    + apply detail_views_mirror.
    + apply add_views_mirror.
Qed.

Lemma resource_views_mirror_news_witness :
  swap_outcome (as_view (swap_validator accept_all) VAddCommunityResource
                        (sample_request POST superuser) (sample_kwargs "systers")
                        sample_db)
    = as_view accept_all VAddCommunityNews
              (swap_request (sample_request POST superuser))
              (swap_kwargs (sample_kwargs "systers")) (swap_db sample_db).
Proof.
  apply (proj2 resource_views_mirror_news VAddCommunityNews
               VAddCommunityResource eq_refl).
Defined.

(** No view updates a resource. *)
Lemma both_models_provided_counterexample : ~ both_models_provided OpUpdate.
Proof.
  intros (wn & wr & _ & _ & Hop & Hm).
  destruct wr; simpl in Hm; try discriminate Hm; discriminate Hop.
Qed.

(** ** Further properties of the views *)

(** Case analysis on every test a view makes on its way to an outcome. *)
Ltac crunch :=
  repeat (unfold_monad;
          match goal with
          | |- context [match method ?x with _ => _ end] => destruct (method x)
          | |- context [queryset_get ?l] => destruct (queryset_get l)
          | |- context [paginate_queryset ?q ?k ?s] =>
              let E := fresh "E" in
              let n := fresh "n" in
              let b := fresh "b" in
              destruct (paginate_queryset_cases q k s) as [E | (n & b & E)];
                rewrite E
          | |- context [insert_post ?p ?l] => unfold insert_post
          | |- context [form_save ?f] => unfold form_save
          | |- context [if ?b then _ else _] => destruct b
          end).

(** X1: No view writes to the communities table, and no view writes to the table
    of the post model it does not work on: a news view leaves the resources
    alone and a resource view the news. *)
Theorem views_keep_other_tables (valid : Validator) (w : View) (r : Request)
    (kw : Kwargs) (t : DB) :
  communities (db (snd (as_view valid w r kw t))) = communities t /\
  objects (other_model (view_post_model w)) (db (snd (as_view valid w r kw t)))
    = objects (other_model (view_post_model w)) t.
Proof.
  destruct t as [cs ns rs].
  destruct w; cbn [view_post_model other_model objects]; run; crunch.
  all: split; reflexivity.
Qed.

(** X2: A GET request never changes the database, whatever the view, the user
    and the URL. *)
Theorem get_requests_do_not_write (valid : Validator) (w : View) (r : Request)
    (kw : Kwargs) (t : DB) :
  method r = GET ->
  db (snd (as_view valid w r kw t)) = t.
Proof.
  intros Hm.
  destruct w; run; rewrite ?Hm.
  all: repeat first
         [ progress unfold_monad
         | rewrite Hm
         | match goal with
           | |- context [queryset_get ?l] => destruct (queryset_get l)
           | |- context [paginate_queryset ?q ?k ?s] =>
               let E := fresh "E" in
               let n := fresh "n" in
               let b := fresh "b" in
               destruct (paginate_queryset_cases q k s) as [E | (n & b & E)];
                 rewrite E
           | |- context [if ?b then _ else _] => destruct b
           end ].
  all: reflexivity.
Qed.

Lemma get_requests_do_not_write_witness :
  db (snd (as_view accept_all VDeleteCommunityNews (sample_request GET superuser)
                   (sample_kwargs "systers") sample_db)) = sample_db.
Proof.
  apply (get_requests_do_not_write accept_all VDeleteCommunityNews
           (sample_request GET superuser) (sample_kwargs "systers") sample_db).
  reflexivity.
Defined.

(** X3: A request of an unauthenticated user to a mutating view is refused with
    PermissionDenied at once: no community is looked up, no permission is
    evaluated, nothing is written. *)
Theorem unauthenticated_refused (valid : Validator) (w : View) (r : Request)
    (kw : Kwargs) (t : DB) :
  is_mutating w = true ->
  is_authenticated (user r) = false ->
  as_view valid w r kw t = (inl PermissionDenied, init r kw t).
Proof.
  intros Hw Ha.
  destruct w; simpl in Hw; try discriminate Hw; run; rewrite Ha; reflexivity.
Qed.

Lemma unauthenticated_refused_witness :
  as_view accept_all VEditCommunityNews (sample_request POST anonymous)
          (sample_kwargs "systers") sample_db
    = (inl PermissionDenied,
       init (sample_request POST anonymous) (sample_kwargs "systers") sample_db).
Proof.
  apply (unauthenticated_refused accept_all VEditCommunityNews
           (sample_request POST anonymous) (sample_kwargs "systers") sample_db);
    reflexivity.
Defined.

(** X4: The list and detail views are public and read-only: whoever asks, they
    never answer PermissionDenied, never evaluate a permission and never
    write to the database. *)
Theorem read_views_public (valid : Validator) (w : View) (r : Request)
    (kw : Kwargs) (t : DB) :
  is_mutating w = false ->
  fst (as_view valid w r kw t) <> inl PermissionDenied /\
  perm_trace (snd (as_view valid w r kw t)) = [] /\
  db (snd (as_view valid w r kw t)) = t.
Proof.
  intros Hw.
  destruct w; simpl in Hw; try discriminate Hw; run; crunch.
  all: cbn [fst snd]; repeat split; try reflexivity; discriminate.
Qed.

Lemma read_views_public_witness :
  fst (as_view accept_all VCommunityResource (sample_request GET anonymous)
               (sample_kwargs "outreach") sample_db) <> inl PermissionDenied.
Proof.
  apply (read_views_public accept_all VCommunityResource
           (sample_request GET anonymous) (sample_kwargs "outreach") sample_db).
  reflexivity.
Defined.

(** X5: [get_community] hands CommunityMenuMixin the community of the URL: once
    a list or detail view has taken a GET request naming an existing
    community, it returns that community, also when the request then fails
    on the page number or on the post.  On an instance that has not fetched
    its object it raises AttributeError. *)
Theorem get_community_is_url_community (valid : Validator) (w : View)
    (getc : M Instance) (r : Request) (kw : Kwargs) (t : DB) (c : Community) :
  view_get_community w = Some getc ->
  method r = GET ->
  identified_by community_slug (kwargs_slug kw) (communities t) c ->
  fst (getc (snd (as_view valid w r kw t))) = inr (ACommunity c) /\
  fst (getc (init r kw t)) = inl AttributeError.
Proof.
  intros Hw Hm Hc. apply identified_by_get in Hc.
  destruct w; simpl in Hw; inversion Hw; subst getc; clear Hw.
  all: split; [|reflexivity].
  all: run; rewrite Hm, Hc; crunch; reflexivity.
Qed.

Lemma get_community_is_url_community_witness :
  fst (CommunityNewsView.get_community
         (snd (as_view accept_all VCommunityNews (sample_request GET anonymous)
                       (sample_kwargs "systers") sample_db)))
    = inr (ACommunity systers).
Proof.
  apply (get_community_is_url_community accept_all VCommunityNews
           CommunityNewsView.get_community (sample_request GET anonymous)
           (sample_kwargs "systers") sample_db systers);
    reflexivity.
Defined.

(** What a successful pagination returns. *)
Lemma paginate_queryset_page (q : list Post) (page_size : nat) (st st' : St)
    (number : Z) (items : list Post) (b : bool) :
  1 <= page_size ->
  paginate_queryset q page_size st = (inr (number, items, b), st') ->
  st' = st /\
  (1 <= number <= Z.of_nat (num_pages page_size (length q)))%Z /\
  items = page_items page_size (Z.to_nat number) q.
Proof.
  intros Hs.
  assert (Hn : 1 <= num_pages page_size (length q)).
  { unfold num_pages. apply Nat.div_str_pos. lia. }
  unfold paginate_queryset; unfold_monad.
  destruct (GET_page _) as [[n| | |]|]; unfold_monad.
  4: intros Hq; discriminate Hq.
  all: match goal with
       | |- context [(?x <? 1)%Z] => destruct (Z.ltb_spec x 1)
       end; unfold_monad; [intros Hq; discriminate Hq|].
  all: match goal with
       | |- context [(?x <? ?y)%Z && _] => destruct (Z.ltb_spec x y)
       end; cbn [andb].
  all: try match goal with
       | |- context [negb (?x =? 1)%Z] => destruct (Z.eqb_spec x 1)
       end; cbn [negb]; unfold_monad.
  all: intros Hq; inversion Hq; subst; clear Hq.
  all: repeat split; lia.
Qed.

(** X6: When a list view renders, the template is the post list, [community]
    and [object] are the community identified by the slug of the URL,
    [post_type] names the model, [page_obj] is a page number between 1 and
    the number of pages, and no [post] is set. *)
Theorem list_view_context (valid : Validator) (m : PostModel) (r : Request)
    (kw : Kwargs) (t : DB) (template : string) (context : Context) (st' : St) :
  as_view valid (list_view m) r kw t
    = (inr (TemplateResponse template context), st') ->
  exists c number,
    identified_by community_slug (kwargs_slug kw) (communities t) c /\
    template = "blog/post_list.html" /\
    context !! "community" = Some (VObj (ACommunity c)) /\
    context !! "object" = Some (VObj (ACommunity c)) /\
    context !! "post_type" = Some (VStr (post_type m)) /\
    context !! "page_obj" = Some (VInt number) /\
    (1 <= number
       <= Z.of_nat (num_pages 5 (length (filter_community c (objects m t)))))%Z /\
    context !! "post" = None.
Proof.
  destruct m; unfold list_view; run.
  all: destruct (method r); [|absurd_outcome].
  all: lookup_cases c Ec; [|absurd_outcome..]; unfold_monad.
  all: match goal with
       | |- context [paginate_queryset ?q ?k ?s] =>
           destruct (paginate_queryset q k s) as [[e|[[number items] b]] s1] eqn:E
       end; [absurd_outcome|unfold_monad].
  all: apply paginate_queryset_page in E;
    [|unfold CommunityNewsListView.paginate_by; lia];
    destruct E as (-> & Hn & ->).
  all: intros H; inversion H; subst; clear H.
  all: exists c, number; apply queryset_get_found in Ec.
  all: repeat split; try reflexivity; try exact Ec; apply Hn.
Qed.

Lemma list_view_context_witness :
  exists c,
    context_lookup "community"
      (fst (as_view accept_all VCommunityResourceList
                    (sample_request GET anonymous) (sample_kwargs "outreach")
                    sample_db))
      = Some (VObj (ACommunity c)) /\
    community_slug c = "outreach".
Proof.
  destruct (as_view accept_all VCommunityResourceList
                    (sample_request GET anonymous) (sample_kwargs "outreach")
                    sample_db) as [x st'] eqn:E.
  assert (Hx : exists template context, x = inr (TemplateResponse template context)).
  { vm_compute in E. inversion E. eauto. }
  destruct Hx as (template & context & ->).
  destruct (list_view_context accept_all Resource _ _ _ _ _ _ E)
    as (c & number & Hc & _ & Hcc & _).
  exists c. cbn [fst context_lookup]. split; [exact Hcc|].
  apply identified_by_sound in Hc. apply Hc.
Defined.

(** ** Pagination of the list views *)

(** Every element of a list is on one of its pages. *)
Lemma page_items_cover {A} (per_page : nat) (l : list A) (x : A) :
  1 <= per_page ->
  In x l ->
  exists number,
    1 <= number <= num_pages per_page (length l) /\
    In x (page_items per_page number l).
Proof.
  intros Hs Hin.
  destruct (In_nth_error l x Hin) as [i Hi].
  assert (Hlen : i < length l) by (apply nth_error_Some; congruence).
  pose proof (Nat.div_mod_eq i per_page) as Hdm.
  assert (Hmod : i mod per_page < per_page) by (apply Nat.mod_upper_bound; lia).
  exists (S (i / per_page)). split; [split; [lia|]|].
  - unfold num_pages. apply Nat.div_le_lower_bound; [lia|]. nia.
  - unfold page_items.
    replace (S (i / per_page) - 1) with (i / per_page) by lia.
    set (bottom := i / per_page * per_page).
    assert (Hb : bottom <= i) by (unfold bottom; nia).
    apply nth_error_In with (n := i - bottom).
    rewrite nth_error_firstn, nth_error_skipn.
    replace (bottom + (i - bottom)) with i by lia.
    destruct (length l <=? bottom + per_page) eqn:E.
    + destruct (Nat.ltb_spec (i - bottom) (length l - bottom)); [exact Hi|lia].
    + destruct (Nat.ltb_spec (i - bottom) (bottom + per_page - bottom));
        [exact Hi|unfold bottom in *; nia].
Qed.

(** X7: How a list view answers the [page] parameter of a GET request naming an
    existing community: a page number below 1 or beyond the last page and a
    non-empty parameter that is neither a number nor [last] are a 404; a
    number in range renders that page, [last] renders the last page, and an
    empty parameter, like a missing one, renders the first page. *)
Theorem list_view_pages (valid : Validator) (m : PostModel) (r : Request)
    (kw : Kwargs) (t : DB) (c : Community) :
  method r = GET ->
  identified_by community_slug (kwargs_slug kw) (communities t) c ->
  let q := filter_community c (objects m t) in
  let np := Z.of_nat (num_pages 5 (length q)) in
  let x := fst (as_view valid (list_view m) r kw t) in
  (forall n, GET_page r = Some (PageInt n) -> (n < 1 \/ np < n)%Z ->
     x = inl Http404) /\
  (GET_page r = Some PageOther -> x = inl Http404) /\
  (forall n, GET_page r = Some (PageInt n) -> (1 <= n <= np)%Z ->
     context_lookup "object_list" x
       = Some (VList (page_items 5 (Z.to_nat n) q))) /\
  (GET_page r = Some PageLast ->
     context_lookup "object_list" x
       = Some (VList (page_items 5 (num_pages 5 (length q)) q))) /\
  (GET_page r = Some PageEmpty \/ GET_page r = None ->
     context_lookup "object_list" x = Some (VList (page_items 5 1 q))).
Proof.
  intros Hm Hc q np x. subst q np x. apply identified_by_get in Hc.
  assert (Hn : forall l : list Post, 1 <= num_pages 5 (length l)).
  { intros l. unfold num_pages. apply Nat.div_str_pos. lia. }
  destruct m; unfold list_view; cbn [objects]; run; rewrite Hm, Hc; unfold_monad.
  all: unfold paginate_queryset; unfold_monad.
  all: repeat split.
  all: try (intros n Hp Hr; rewrite Hp; unfold_monad).
  all: try (intros [Hp | Hp]; rewrite Hp; unfold_monad).
  all: try (intros Hp; rewrite Hp; unfold_monad).
  all: match goal with
       | |- context [filter_community ?c0 ?l] =>
           specialize (Hn (filter_community c0 l))
       end.
  all: repeat match goal with
       | |- context [(?a <? ?b)%Z] => destruct (Z.ltb_spec a b)
       | |- context [(?a =? ?b)%Z] => destruct (Z.eqb_spec a b)
       end; cbn [andb negb orb]; unfold_monad; cbn [fst context_lookup].
  all: try reflexivity; try lia.
  all: rewrite Nat2Z.id; reflexivity.
Qed.

Lemma list_view_pages_witness :
  fst (as_view accept_all VCommunityNewsList
               (with_page 3 (sample_request GET anonymous))
               (sample_kwargs "systers") busy_db) = inl Http404 /\
  context_lookup "object_list"
    (fst (as_view accept_all VCommunityNewsList
                  (with_page 2 (sample_request GET anonymous))
                  (sample_kwargs "systers") busy_db))
    = Some (VList [mkPost 6 "p6" "text" 1 7; mkPost 7 "p7" "text" 1 7]).
Proof.
  split.
  - destruct (list_view_pages accept_all News
                (with_page 3 (sample_request GET anonymous))
                (sample_kwargs "systers") busy_db systers eq_refl eq_refl)
      as (H & _).
    apply (H 3%Z eq_refl). right. vm_compute. reflexivity.
  - destruct (list_view_pages accept_all News
                (with_page 2 (sample_request GET anonymous))
                (sample_kwargs "systers") busy_db systers eq_refl eq_refl)
      as (_ & _ & H & _).
    refine (H 2%Z eq_refl _).
    split; vm_compute; discriminate.
Defined.

(** X8: Nothing is out of reach of the pagination: every post of an existing
    community is rendered on some page of its list view. *)
Theorem list_view_reaches_every_post (valid : Validator) (m : PostModel)
    (kw : Kwargs) (t : DB) (c : Community) (p : Post) :
  identified_by community_slug (kwargs_slug kw) (communities t) c ->
  In p (objects m t) ->
  post_community p = community_pk c ->
  exists n,
    forall r,
      method r = GET ->
      exists items,
        context_lookup "object_list"
          (fst (as_view valid (list_view m) (with_page n r) kw t))
          = Some (VList items) /\
        In p items.
Proof.
  intros Hc Hin Hp.
  assert (Hq : In p (filter_community c (objects m t)))
    by (apply filter_community_spec; auto).
  destruct (page_items_cover 5 _ p ltac:(lia) Hq) as (n & Hn & Hpage).
  exists (Z.of_nat n). intros r Hm.
  apply identified_by_get in Hc.
  destruct m; unfold list_view; cbn [objects] in *; run.
  all: cbn [with_page method GET_page]; rewrite Hm, Hc; unfold_monad.
  all: unfold paginate_queryset; unfold_monad; cbn [with_page method GET_page].
  all: unfold_monad.
  all: repeat match goal with
       | |- context [(?a <? ?b)%Z] => destruct (Z.ltb_spec a b)
       | |- context [(?a =? ?b)%Z] => destruct (Z.eqb_spec a b)
       end; cbn [andb negb orb]; unfold_monad; cbn [fst context_lookup]; try lia.
  all: eexists; split; [reflexivity|]; rewrite Nat2Z.id; exact Hpage.
Qed.

Lemma list_view_reaches_every_post_witness :
  exists n,
    forall r,
      method r = GET ->
      exists items,
        context_lookup "object_list"
          (fst (as_view accept_all VCommunityNewsList (with_page n r)
                        (sample_kwargs "systers") busy_db))
          = Some (VList items) /\
        In (mkPost 7 "p7" "text" 1 7) items.
Proof.
  apply (list_view_reaches_every_post accept_all News (sample_kwargs "systers")
           busy_db systers (mkPost 7 "p7" "text" 1 7)).
  - reflexivity.
  - simpl. tauto.
  - reflexivity.
Defined.

(** ** Pages of the detail, add, edit and delete views *)

(** X9: A detail view of an existing community answers an unknown post slug
    with a 404 and leaves the database as it was. *)
Theorem detail_view_missing_post (valid : Validator) (m : PostModel)
    (r : Request) (kw : Kwargs) (t : DB) (c : Community) :
  method r = GET ->
  identified_by community_slug (kwargs_slug kw) (communities t) c ->
  no_such post_slug (kwargs_post_slug m kw) (objects m t) ->
  fst (as_view valid (detail_view m) r kw t) = inl Http404 /\
  db (snd (as_view valid (detail_view m) r kw t)) = t.
Proof.
  intros Hm Hc Hp. apply identified_by_get in Hc. apply no_such_get in Hp.
  destruct m; unfold detail_view; cbn [objects kwargs_post_slug] in Hp; run.
  all: rewrite Hm, Hc; unfold_monad; rewrite Hp; split; reflexivity.
Qed.

Lemma detail_view_missing_post_witness :
  fst (as_view accept_all VCommunityNews (sample_request GET anonymous)
               (mkKwargs "systers" "guide" "guide") sample_db) = inl Http404.
Proof.
  apply (detail_view_missing_post accept_all News (sample_request GET anonymous)
           (mkKwargs "systers" "guide" "guide") sample_db systers);
    reflexivity.
Defined.

(** X10: A GET request of a user who may add posts to the community renders the
    add page: the context holds the community of the URL, the post type of
    the view and an unbound form that already carries the requesting user
    and the community; no object is set and nothing is written. *)
Theorem add_view_form_page (valid : Validator) (m : PostModel) (r : Request)
    (kw : Kwargs) (t : DB) (c : Community) (perm : string) :
  method r = GET ->
  is_authenticated (user r) = true ->
  identified_by community_slug (kwargs_slug kw) (communities t) c ->
  view_permission (add_view m) = Some perm ->
  user_has_perm (user r) perm c = true ->
  exists context st',
    as_view valid (add_view m) r kw t
      = (inr (TemplateResponse "blog/add_post.html" context), st') /\
    context !! "community" = Some (VObj (ACommunity c)) /\
    context !! "post_type" = Some (VStr (post_type m)) /\
    context !! "form"
      = Some (VForm (mkForm (match m with
                             | News => AddNewsForm
                             | Resource => AddResourceForm
                             end) None None (Some (user r, c)))) /\
    context !! "object" = None /\
    db st' = t.
Proof.
  intros Hm Ha Hc Hw Hp. apply identified_by_get in Hc.
  destruct m; simpl in Hw; inversion Hw; subst perm; clear Hw.
  all: unfold add_view; run; rewrite Ha, Hc; unfold_monad.
  all: rewrite Hp, Hm; unfold_monad; rewrite Hm; unfold_monad.
  all: eexists _, _; repeat split; reflexivity.
Qed.

Lemma add_view_form_page_witness :
  exists context st',
    as_view accept_all VAddCommunityNews (sample_request GET member)
            (sample_kwargs "systers") sample_db
      = (inr (TemplateResponse "blog/add_post.html" context), st') /\
    context !! "community" = Some (VObj (ACommunity systers)).
Proof.
  destruct (add_view_form_page accept_all News (sample_request GET member)
              (sample_kwargs "systers") sample_db systers "add_community_news"
              eq_refl eq_refl eq_refl eq_refl eq_refl)
    as (context & st' & E & Hc & _).
  exists context, st'. split; [exact E | exact Hc].
Defined.

(** X11: A submission the form validation rejects is not saved: the add
    views and the edit view render their page again, with the bound form in
    the context, and the database is as it was.  On the edit page [object]
    is the instance of the form as the validation left it, with the primary
    key of the post that is being edited. *)
Theorem rejected_submission_not_saved (valid : Validator) (r : Request)
    (kw : Kwargs) (t : DB) (c : Community) :
  method r = POST ->
  is_authenticated (user r) = true ->
  identified_by community_slug (kwargs_slug kw) (communities t) c ->
  (forall m perm f,
     view_permission (add_view m) = Some perm ->
     user_has_perm (user r) perm c = true ->
     f = mkForm (match m with
                 | News => AddNewsForm
                 | Resource => AddResourceForm
                 end) (Some (POST_data r)) None (Some (user r, c)) ->
     valid t f = false ->
     exists context st',
       as_view valid (add_view m) r kw t
         = (inr (TemplateResponse "blog/add_post.html" context), st') /\
       context !! "form" = Some (VForm f) /\
       db st' = t) /\
  (forall p0 f,
     user_has_perm (user r) "change_community_news" c = true ->
     identified_by post_slug (kwargs_news_slug kw) (news t) p0 ->
     f = mkForm EditNewsForm (Some (POST_data r)) (Some p0) None ->
     valid t f = false ->
     exists context st' p1,
       as_view valid VEditCommunityNews r kw t
         = (inr (TemplateResponse "blog/edit_post.html" context), st') /\
       edited valid t (POST_data r) p0 = Some p1 /\
       context !! "form" = Some (VForm (form_clean valid t f)) /\
       context !! "object" = Some (VObj (APost p1)) /\
       post_pk p1 = post_pk p0 /\
       db st' = t).
Proof.
  intros Hm Ha Hc. apply identified_by_get in Hc. split.
  - intros m perm f Hw Hp -> Hv.
    destruct m; simpl in Hw; inversion Hw; subst perm; clear Hw.
    all: unfold add_view; run; rewrite Ha, Hc; unfold_monad.
    all: rewrite Hp, Hm; unfold_monad; rewrite Hm, Hv; unfold_monad.
    all: eexists _, _; repeat split; reflexivity.
  - intros p0 f Hp Hp0 -> Hv. apply identified_by_get in Hp0.
    change (news t) with (objects News t) in Hp0.
    run; rewrite Ha, Hc; unfold_monad. rewrite Hp, Hm; unfold_monad.
    rewrite Hp0; unfold_monad. rewrite Hm, Hv; unfold_monad.
    eexists _, _, _; repeat split; reflexivity.
Qed.

Lemma rejected_submission_not_saved_witness :
  exists context st',
    as_view reject_all VEditCommunityNews (sample_request POST superuser)
            (sample_kwargs "outreach") sample_db
      = (inr (TemplateResponse "blog/edit_post.html" context), st') /\
    db st' = sample_db.
Proof.
  destruct (proj2 (rejected_submission_not_saved reject_all
                     (sample_request POST superuser) (sample_kwargs "outreach")
                     sample_db outreach eq_refl eq_refl eq_refl)
                  hello _ eq_refl eq_refl eq_refl eq_refl)
    as (context & st' & p1 & E & _ & _ & _ & _ & Hd).
  exists context, st'. split; [exact E | exact Hd].
Defined.

(** X12: Whenever the edit view renders, it is the edit page; the context
    holds the community of the URL, no [post_type], and under [object] the
    instance of the form, which has the primary key of the news post
    identified by the news slug; on a GET request it is that post itself and
    the form is unbound.  The database is as it was. *)
Theorem edit_view_context (valid : Validator) (r : Request) (kw : Kwargs)
    (t : DB) (template : string) (context : Context) (st' : St) :
  as_view valid VEditCommunityNews r kw t
    = (inr (TemplateResponse template context), st') ->
  exists c p0 p1 data,
    identified_by community_slug (kwargs_slug kw) (communities t) c /\
    identified_by post_slug (kwargs_news_slug kw) (news t) p0 /\
    template = "blog/edit_post.html" /\
    context !! "community" = Some (VObj (ACommunity c)) /\
    context !! "object" = Some (VObj (APost p1)) /\
    context !! "form" = Some (VForm (mkForm EditNewsForm data (Some p1) None)) /\
    post_pk p1 = post_pk p0 /\
    (method r = GET -> p1 = p0 /\ data = None) /\
    context !! "post_type" = None /\
    db st' = t.
Proof.
  run.
  destruct (is_authenticated (user r)); [unfold_monad|absurd_outcome].
  lookup_cases c Ec; [|absurd_outcome..]; unfold_monad.
  destruct (user_has_perm (user r) _ c); [unfold_monad|absurd_outcome].
  destruct (method r) eqn:Em; unfold_monad.
  all: lookup_cases p0 Ep; [|absurd_outcome..]; unfold_monad.
  all: rewrite Em; unfold_monad.
  2: destruct (valid t _); [unfold form_save; absurd_outcome|unfold_monad].
  all: intros H; inversion H; subst; clear H.
  all: apply queryset_get_found in Ec, Ep.
  all: eexists c, p0, _, _; repeat split; try reflexivity; try assumption.
  all: exfalso; congruence.
Qed.

Lemma edit_view_context_witness :
  context_lookup "post_type"
    (fst (as_view accept_all VEditCommunityNews (sample_request GET superuser)
                  (sample_kwargs "systers") sample_db)) = None /\
  context_lookup "object"
    (fst (as_view accept_all VEditCommunityNews (sample_request GET superuser)
                  (sample_kwargs "systers") sample_db))
    = Some (VObj (APost hello)).
Proof.
  destruct (as_view accept_all VEditCommunityNews (sample_request GET superuser)
                    (sample_kwargs "systers") sample_db) as [x st'] eqn:E.
  assert (Hx : exists template context, x = inr (TemplateResponse template context)).
  { vm_compute in E. inversion E. eauto. }
  destruct Hx as (template & context & ->).
  destruct (edit_view_context accept_all _ _ _ _ _ _ E)
    as (c & p0 & p1 & data & _ & Hp0 & _ & _ & Ho & _ & _ & Hg & Ht & _).
  cbn [fst context_lookup]. split; [exact Ht|]. rewrite Ho.
  destruct (Hg eq_refl) as [-> _].
  unfold identified_by in Hp0. vm_compute in Hp0.
  inversion Hp0. reflexivity.
Defined.

(** ** What a submission does to the tables *)

Lemma delete_post_In (p q : Post) (l : list Post) :
  In q (delete_post p l) <-> In q l /\ post_pk q <> post_pk p.
Proof.
  unfold delete_post. rewrite filter_In, negb_true_iff, Nat.eqb_neq. reflexivity.
Qed.

Lemma filter_filter_comm {A} (f g : A -> bool) (l : list A) :
  List.filter f (List.filter g l) = List.filter g (List.filter f l).
Proof.
  induction l as [|x l IH]; [reflexivity|].
  cbn [List.filter].
  destruct (f x) eqn:Ef, (g x) eqn:Eg; cbn [List.filter];
    rewrite ?Ef, ?Eg, IH; reflexivity.
Qed.

(** Once the row a slug identifies is deleted, the slug names nothing. *)
Lemma delete_post_no_such (s : string) (l : list Post) (p : Post) :
  identified_by post_slug s l p ->
  no_such post_slug s (delete_post p l).
Proof.
  unfold identified_by, no_such, filter_slug, delete_post. intros H.
  rewrite filter_filter_comm, H. cbn [List.filter].
  rewrite Nat.eqb_refl. reflexivity.
Qed.

Lemma update_post_length (p : Post) (l : list Post) :
  length (update_post p l) = length l.
Proof. unfold update_post. apply length_map. Qed.

Lemma update_post_others (p q : Post) (l : list Post) :
  post_pk q <> post_pk p ->
  In q (update_post p l) <-> In q l.
Proof.
  intros Hq. unfold update_post. rewrite in_map_iff. split.
  - intros (x & Hx & Hin).
    destruct (Nat.eqb_spec (post_pk x) (post_pk p)) as [E|E]; subst; congruence.
  - intros Hin. exists q. split; [|exact Hin].
    destruct (Nat.eqb_spec (post_pk q) (post_pk p)); congruence.
Qed.

(** The exact outcome of an accepted submission to an add view. *)
Lemma add_view_saves (valid : Validator) (m : PostModel) (r : Request)
    (kw : Kwargs) (t : DB) (c : Community) (perm : string) :
  method r = POST ->
  is_authenticated (user r) = true ->
  identified_by community_slug (kwargs_slug kw) (communities t) c ->
  view_permission (add_view m) = Some perm ->
  user_has_perm (user r) perm c = true ->
  valid t (mkForm (match m with
                   | News => AddNewsForm
                   | Resource => AddResourceForm
                   end) (Some (POST_data r)) None (Some (user r, c))) = true ->
  let p := mkPost (next_pk (objects m t)) (data_slug (POST_data r))
                  (data_body (POST_data r)) (community_pk c) (user_pk (user r)) in
  exists url st',
    as_view valid (add_view m) r kw t = (inr (HttpResponseRedirect url), st') /\
    url_kwargs url
      = [("slug", community_slug c);
         (match m with News => "news_slug" | Resource => "resource_slug" end,
          post_slug p)] /\
    db st' = set_objects m (objects m t ++ [p]) t.
Proof.
  intros Hm Ha Hc Hw Hp Hv p. subst p. apply identified_by_get in Hc.
  destruct m; simpl in Hw; inversion Hw; subst perm; clear Hw.
  all: unfold add_view; run; rewrite Ha, Hc; unfold_monad.
  all: rewrite Hp, Hm; unfold_monad; rewrite Hm, Hv.
  all: unfold form_save, insert_post; unfold_monad.
  all: eexists _, _; repeat split; reflexivity.
Qed.

(** The exact outcome of an authorised POST to the delete view. *)
Lemma delete_view_deletes (valid : Validator) (r : Request) (kw : Kwargs)
    (t : DB) (c : Community) (p0 : Post) :
  method r = POST ->
  is_authenticated (user r) = true ->
  identified_by community_slug (kwargs_slug kw) (communities t) c ->
  user_has_perm (user r) "delete_community_news" c = true ->
  identified_by post_slug (kwargs_news_slug kw) (news t) p0 ->
  exists url st',
    as_view valid VDeleteCommunityNews r kw t
      = (inr (HttpResponseRedirect url), st') /\
    db st' = set_objects News (delete_post p0 (news t)) t.
Proof.
  intros Hm Ha Hc Hp Hp0. apply identified_by_get in Hc, Hp0.
  change (news t) with (objects News t) in Hp0.
  run; rewrite Ha, Hc; unfold_monad. rewrite Hp, Hm; unfold_monad.
  rewrite Hp0; unfold_monad.
  eexists _, _; split; reflexivity.
Qed.

(** X13: Add, then look: after an accepted submission of a post whose slug was
    not in use, the detail view reached through the keyword arguments of the
    redirect URL shows the saved post, and that post belongs to the
    community of the URL. *)
Theorem add_then_detail (valid : Validator) (m : PostModel) (r : Request)
    (kw : Kwargs) (t : DB) (c : Community) (perm : string) :
  method r = POST ->
  is_authenticated (user r) = true ->
  identified_by community_slug (kwargs_slug kw) (communities t) c ->
  view_permission (add_view m) = Some perm ->
  user_has_perm (user r) perm c = true ->
  valid t (mkForm (match m with
                   | News => AddNewsForm
                   | Resource => AddResourceForm
                   end) (Some (POST_data r)) None (Some (user r, c))) = true ->
  no_such post_slug (data_slug (POST_data r)) (objects m t) ->
  exists url st' p,
    as_view valid (add_view m) r kw t = (inr (HttpResponseRedirect url), st') /\
    url_kwargs url
      = [("slug", community_slug c);
         (match m with News => "news_slug" | Resource => "resource_slug" end,
          post_slug p)] /\
    post_slug p = data_slug (POST_data r) /\
    post_community p = community_pk c /\
    forall r2 kw2,
      method r2 = GET ->
      kwargs_slug kw2 = community_slug c ->
      kwargs_post_slug m kw2 = post_slug p ->
      exists context,
        fst (as_view valid (detail_view m) r2 kw2 (db st'))
          = inr (TemplateResponse "blog/post.html" context) /\
        context !! "post" = Some (VObj (APost p)).
Proof.
  intros Hm Ha Hc Hw Hp Hv Hfresh.
  destruct (add_view_saves valid m r kw t c perm Hm Ha Hc Hw Hp Hv)
    as (url & st' & E & Hu & Hd).
  set (p := mkPost (next_pk (objects m t)) (data_slug (POST_data r))
                   (data_body (POST_data r)) (community_pk c)
                   (user_pk (user r))) in *.
  exists url, st', p. split; [exact E|]. split; [exact Hu|].
  split; [reflexivity|]. split; [reflexivity|].
  intros r2 kw2 Hm2 Hs2 Hp2.
  apply detail_view_renders with (c := c); [exact Hm2| |].
  - rewrite Hd, Hs2. destruct (identified_by_sound _ _ _ _ Hc) as [_ ->].
    destruct m; exact Hc.
  - rewrite Hd, Hp2. unfold identified_by, filter_slug.
    change (post_slug p) with (data_slug (POST_data r)).
    unfold no_such, filter_slug in Hfresh.
    destruct m; cbn [objects set_objects news resources] in *.
    all: rewrite List.filter_app, Hfresh; cbn [List.filter app].
    all: rewrite String.eqb_refl; reflexivity.
Qed.

Lemma add_then_detail_witness :
  exists url st' p,
    as_view accept_all VAddCommunityNews (sample_request POST member)
            (sample_kwargs "systers") sample_db
      = (inr (HttpResponseRedirect url), st') /\
    context_lookup "post"
      (fst (as_view accept_all VCommunityNews (sample_request GET anonymous)
                    (mkKwargs "systers" "fresh" "") (db st')))
      = Some (VObj (APost p)) /\
    post_community p = community_pk systers.
Proof.
  destruct (add_then_detail accept_all News (sample_request POST member)
              (sample_kwargs "systers") sample_db systers "add_community_news"
              eq_refl eq_refl eq_refl eq_refl eq_refl eq_refl eq_refl)
    as (url & st' & p & E & _ & Hs & Hpc & Hview).
  exists url, st', p. split; [exact E|]. split; [|exact Hpc].
  destruct (Hview (sample_request GET anonymous) (mkKwargs "systers" "fresh" "")
                  eq_refl eq_refl (eq_sym Hs)) as (context & Hx & Hpost).
  change VCommunityNews with (detail_view News).
  rewrite Hx. exact Hpost.
Defined.

(** The queryset a list view computes on a GET request naming an existing
    community. *)
Lemma list_view_object_list (valid : Validator) (m : PostModel) (r : Request)
    (kw : Kwargs) (t : DB) (c : Community) :
  method r = GET ->
  identified_by community_slug (kwargs_slug kw) (communities t) c ->
  object_list (self (snd (as_view valid (list_view m) r kw t)))
    = filter_community c (objects m t).
Proof.
  intros Hm Hc. apply identified_by_get in Hc.
  destruct m; unfold list_view; run; rewrite Hm, Hc; unfold_monad.
  all: paginate_cases n b; unfold_monad; reflexivity.
Qed.

(** X14: Add, then list: after an accepted submission the saved post is the last
    entry of the queryset of its own community's list view, and the querysets
    of the other communities are what they were. *)
Theorem add_then_list (valid : Validator) (m : PostModel) (r : Request)
    (kw : Kwargs) (t : DB) (c : Community) (perm : string) :
  method r = POST ->
  is_authenticated (user r) = true ->
  identified_by community_slug (kwargs_slug kw) (communities t) c ->
  view_permission (add_view m) = Some perm ->
  user_has_perm (user r) perm c = true ->
  valid t (mkForm (match m with
                   | News => AddNewsForm
                   | Resource => AddResourceForm
                   end) (Some (POST_data r)) None (Some (user r, c))) = true ->
  exists url st' p,
    as_view valid (add_view m) r kw t = (inr (HttpResponseRedirect url), st') /\
    post_slug p = data_slug (POST_data r) /\
    forall r2 kw2 c2,
      method r2 = GET ->
      identified_by community_slug (kwargs_slug kw2) (communities t) c2 ->
      object_list (self (snd (as_view valid (list_view m) r2 kw2 (db st'))))
        = filter_community c2 (objects m t)
          ++ (if Nat.eqb (community_pk c) (community_pk c2) then [p] else []).
Proof.
  intros Hm Ha Hc Hw Hp Hv.
  destruct (add_view_saves valid m r kw t c perm Hm Ha Hc Hw Hp Hv)
    as (url & st' & E & _ & Hd).
  set (p := mkPost (next_pk (objects m t)) (data_slug (POST_data r))
                   (data_body (POST_data r)) (community_pk c)
                   (user_pk (user r))) in *.
  exists url, st', p. split; [exact E|]. split; [reflexivity|].
  intros r2 kw2 c2 Hm2 Hc2.
  rewrite (list_view_object_list valid m r2 kw2 (db st') c2 Hm2).
  - rewrite Hd. unfold filter_community.
    destruct m; cbn [objects set_objects news resources].
    all: rewrite List.filter_app; cbn [List.filter post_community p].
    all: reflexivity.
  - rewrite Hd. destruct m; exact Hc2.
Qed.

Lemma add_then_list_witness :
  exists url st' p,
    as_view accept_all VAddCommunityNews (sample_request POST member)
            (sample_kwargs "systers") sample_db
      = (inr (HttpResponseRedirect url), st') /\
    object_list (self (snd (as_view accept_all VCommunityNewsList
                              (sample_request GET anonymous)
                              (sample_kwargs "systers") (db st'))))
      = [p] /\
    object_list (self (snd (as_view accept_all VCommunityNewsList
                              (sample_request GET anonymous)
                              (sample_kwargs "outreach") (db st'))))
      = [hello].
Proof.
  destruct (add_then_list accept_all News (sample_request POST member)
              (sample_kwargs "systers") sample_db systers "add_community_news"
              eq_refl eq_refl eq_refl eq_refl eq_refl eq_refl)
    as (url & st' & p & E & _ & Hl).
  exists url, st', p. split; [exact E|]. split.
  - exact (Hl (sample_request GET anonymous) (sample_kwargs "systers") systers
              eq_refl eq_refl).
  - exact (Hl (sample_request GET anonymous) (sample_kwargs "outreach") outreach
              eq_refl eq_refl).
Defined.

(** X15: Whenever the delete view redirects, the request came from a user
    holding [delete_community_news] on the community of the URL, and the
    news table lost the rows with the primary key of the post identified by
    the news slug, that post among them, and no other row. *)
Theorem delete_removes_that_post (valid : Validator) (r : Request) (kw : Kwargs)
    (t : DB) (url : Url) (st' : St) :
  as_view valid VDeleteCommunityNews r kw t
    = (inr (HttpResponseRedirect url), st') ->
  exists c p0,
    identified_by community_slug (kwargs_slug kw) (communities t) c /\
    user_has_perm (user r) "delete_community_news" c = true /\
    identified_by post_slug (kwargs_news_slug kw) (news t) p0 /\
    ~ In p0 (news (db st')) /\
    (forall q, In q (news (db st')) <-> In q (news t) /\ post_pk q <> post_pk p0) /\
    no_such post_slug (kwargs_news_slug kw) (news (db st')).
Proof.
  run.
  destruct (is_authenticated (user r)); [unfold_monad|absurd_outcome].
  lookup_cases c Ec; [|absurd_outcome..]; unfold_monad.
  destruct (user_has_perm (user r) _ c) eqn:Hp; [unfold_monad|absurd_outcome].
  destruct (method r) eqn:Em; unfold_monad.
  all: lookup_cases p0 Ep; [|absurd_outcome..]; unfold_monad.
  1: absurd_outcome.
  intros H; inversion H; subst; clear H.
  exists c, p0.
  apply queryset_get_found in Ec, Ep.
  cbn [news set_objects objects].
  split; [exact Ec|]. split; [exact Hp|]. split; [exact Ep|].
  split; [|split].
  - intros Hin. apply delete_post_In in Hin. destruct Hin as [_ Hne].
    apply Hne. reflexivity.
  - intros q. apply delete_post_In.
  - apply delete_post_no_such. exact Ep.
Qed.

Lemma delete_removes_that_post_witness :
  news (db (snd (as_view accept_all VDeleteCommunityNews
                         (sample_request POST superuser)
                         (sample_kwargs "systers") sample_db))) = [].
Proof.
  destruct (as_view accept_all VDeleteCommunityNews (sample_request POST superuser)
                    (sample_kwargs "systers") sample_db) as [x st'] eqn:E.
  assert (Hx : exists url, x = inr (HttpResponseRedirect url)).
  { vm_compute in E. inversion E. eauto. }
  destruct Hx as [url ->].
  destruct (delete_removes_that_post accept_all _ _ _ _ _ E)
    as (c & p0 & _ & _ & Hp0 & _ & Hq & _).
  cbn [snd]. destruct (news (db st')) as [|q l] eqn:En; [reflexivity|].
  exfalso. destruct (proj1 (Hq q) (or_introl eq_refl)) as [Hin Hne].
  unfold identified_by in Hp0. vm_compute in Hp0. inversion Hp0; subst p0.
  simpl in Hin. destruct Hin as [<- | []]. apply Hne. reflexivity.
Defined.

(** X16: Delete, then look: after the deletion the detail view of the deleted
    slug is a 404, under every existing community and for every visitor. *)
Theorem delete_then_detail (valid : Validator) (r : Request) (kw : Kwargs)
    (t : DB) (c : Community) (p0 : Post) :
  method r = POST ->
  is_authenticated (user r) = true ->
  identified_by community_slug (kwargs_slug kw) (communities t) c ->
  user_has_perm (user r) "delete_community_news" c = true ->
  identified_by post_slug (kwargs_news_slug kw) (news t) p0 ->
  exists url st',
    as_view valid VDeleteCommunityNews r kw t
      = (inr (HttpResponseRedirect url), st') /\
    forall r2 kw2 c2,
      method r2 = GET ->
      identified_by community_slug (kwargs_slug kw2) (communities t) c2 ->
      kwargs_news_slug kw2 = kwargs_news_slug kw ->
      fst (as_view valid VCommunityNews r2 kw2 (db st')) = inl Http404.
Proof.
  intros Hm Ha Hc Hp Hp0.
  destruct (delete_view_deletes valid r kw t c p0 Hm Ha Hc Hp Hp0)
    as (url & st' & E & Hd).
  exists url, st'. split; [exact E|].
  intros r2 kw2 c2 Hm2 Hc2 Hs2.
  apply delete_post_no_such, no_such_get in Hp0. apply identified_by_get in Hc2.
  rewrite Hd. run. rewrite Hm2. cbn [communities news set_objects].
  rewrite Hc2; unfold_monad.
  cbn [communities news set_objects]. rewrite Hs2, Hp0. reflexivity.
Qed.

Lemma delete_then_detail_witness :
  exists url st',
    as_view accept_all VDeleteCommunityNews (sample_request POST superuser)
            (sample_kwargs "systers") sample_db
      = (inr (HttpResponseRedirect url), st') /\
    fst (as_view accept_all VCommunityNews (sample_request GET anonymous)
                 (sample_kwargs "outreach") (db st')) = inl Http404.
Proof.
  destruct (delete_then_detail accept_all (sample_request POST superuser)
              (sample_kwargs "systers") sample_db systers hello
              eq_refl eq_refl eq_refl eq_refl eq_refl)
    as (url & st' & E & H).
  exists url, st'. split; [exact E|].
  apply (H (sample_request GET anonymous) (sample_kwargs "outreach") outreach);
    reflexivity.
Defined.

(** X17: With the permission and an existing community, the edit and delete
    views answer an unknown news slug with a 404, on GET and on POST, and
    leave the database as it was. *)
Theorem missing_post_is_404 (valid : Validator) (w : View) (r : Request)
    (kw : Kwargs) (t : DB) (c : Community) (perm : string) :
  w = VEditCommunityNews \/ w = VDeleteCommunityNews ->
  view_permission w = Some perm ->
  is_authenticated (user r) = true ->
  identified_by community_slug (kwargs_slug kw) (communities t) c ->
  user_has_perm (user r) perm c = true ->
  no_such post_slug (kwargs_news_slug kw) (news t) ->
  as_view valid w r kw t
    = (inl Http404,
       mkSt (mkSelf r kw None (Some c) []) t
            [mkPermCall (user r) perm c]).
Proof.
  intros Hw Hperm Ha Hc Hp Hp0.
  apply identified_by_get in Hc. apply no_such_get in Hp0.
  change (news t) with (objects News t) in Hp0.
  destruct Hw as [-> | ->]; simpl in Hperm; inversion Hperm; subst perm.
  all: run; rewrite Ha, Hc; unfold_monad; rewrite Hp; unfold_monad.
  all: destruct (method r); unfold_monad; rewrite Hp0; reflexivity.
Qed.

Lemma missing_post_is_404_witness :
  fst (as_view accept_all VEditCommunityNews (sample_request GET superuser)
               (mkKwargs "systers" "nothing" "") sample_db) = inl Http404.
Proof.
  rewrite (missing_post_is_404 accept_all VEditCommunityNews
             (sample_request GET superuser) (mkKwargs "systers" "nothing" "")
             sample_db systers "change_community_news");
    try reflexivity.
  left. reflexivity.
Defined.

(** X18: An accepted edit rewrites the post it was asked to edit and nothing
    else: the news table keeps its length and every row with another primary
    key is as it was. *)
Theorem edit_changes_one_post (valid : Validator) (r : Request) (kw : Kwargs)
    (t : DB) (url : Url) (st' : St) :
  as_view valid VEditCommunityNews r kw t
    = (inr (HttpResponseRedirect url), st') ->
  exists p0,
    identified_by post_slug (kwargs_news_slug kw) (news t) p0 /\
    length (news (db st')) = length (news t) /\
    forall q, post_pk q <> post_pk p0 ->
              (In q (news (db st')) <-> In q (news t)).
Proof.
  run.
  destruct (is_authenticated (user r)); [unfold_monad|absurd_outcome].
  lookup_cases c Ec; [|absurd_outcome..]; unfold_monad.
  destruct (user_has_perm (user r) _ c); [unfold_monad|absurd_outcome].
  destruct (method r) eqn:Em; unfold_monad.
  all: lookup_cases p0 Ep; [|absurd_outcome..]; unfold_monad.
  all: rewrite Em; unfold_monad.
  1: absurd_outcome.
  destruct (valid t _); [|absurd_outcome].
  unfold form_save; unfold_monad.
  intros H; inversion H; subst; clear H.
  exists p0. apply queryset_get_found in Ep.
  cbn [news set_objects form_model objects].
  split; [exact Ep|]. split; [apply update_post_length|].
  intros q Hq. apply update_post_others. exact Hq.
Qed.

Lemma edit_changes_one_post_witness :
  length (news (db (snd (as_view accept_all VEditCommunityNews
                                 (sample_request POST superuser)
                                 (sample_kwargs "systers") sample_db)))) = 1.
Proof.
  destruct (as_view accept_all VEditCommunityNews (sample_request POST superuser)
                    (sample_kwargs "systers") sample_db) as [x st'] eqn:E.
  assert (Hx : exists url, x = inr (HttpResponseRedirect url)).
  { vm_compute in E. inversion E. eauto. }
  destruct Hx as [url ->].
  destruct (edit_changes_one_post accept_all _ _ _ _ _ E) as (p0 & _ & Hl & _).
  cbn [snd]. rewrite Hl. reflexivity.
Defined.
